(** * DU-Assessment: the cleaning pipeline of the student-level dataset

    A shallow embedding of
    [DU_IRA_Assessment_Cleaning_Code_Paul_Martinez.py] (steps 5 and 6):
    the term GPA aggregation, the WK3/EOT census split and merge, the
    per-row derivations (flags, race/ethnicity, age) and the final
    de-duplication of the student-level table.

    Conventions of the embedding.
    - A data frame is a list of rows, in row order; a row is a record.
    - A cell of an object column is [option string]: [None] is pandas'
      missing value (NaN), [Some s] a Python [str].
    - Text is ASCII: a character is a code point below 128, and the
      case mappings are Python's on that range. The whitespace class of
      [str.strip], the digit class of [str.isdigit] and the reading of
      [int] follow Python on every code below 256, read as Latin-1, so
      that a digit [int] does not read, such as superscript two, takes
      the path of the [ValueError] as it does in Python.
    - Grade points are exact rationals; the rounding of binary floating
      point is outside the model.
    - A Python exception that nothing catches is the result [Raise]. *)

From Stdlib Require Import ZArith QArith Ascii String.
From stdpp Require Import base option list gmap strings sorting.

Local Open Scope string_scope.
Local Open Scope Z_scope.

(** ** Python text primitives *)

Module Py.

(** [str.isspace] on one character: TAB, LF, VT, FF, CR, the four
    separators FS, GS, RS, US, and the space; above 127, NEL and NBSP
    (codes 133 and 160). *)
Definition isspace (c : ascii) : bool :=
  let n := nat_of_ascii c in
  ((9 <=? n) && (n <=? 13) || (28 <=? n) && (n <=? 32)
   || (n =? 133) || (n =? 160))%nat.

(** A decimal digit, [0] to [9]: the digits [int] reads. *)
Definition isdecimal_char (c : ascii) : bool :=
  let n := nat_of_ascii c in ((48 <=? n) && (n <=? 57))%nat.

(** [str.isdigit] on one character: the decimal digits and the
    superscript digits two, three and one (codes 178, 179 and 185). *)
Definition isdigit_char (c : ascii) : bool :=
  let n := nat_of_ascii c in
  (isdecimal_char c || (n =? 178) || (n =? 179) || (n =? 185))%nat.

(** The whitespace [int] skips around a literal: TAB, LF, VT, FF, CR and
    the space, and of the codes above 127 the whitespace NEL and NBSP
    (133 and 160), which [int] turns into spaces first. The separators
    FS, GS, RS and US are not skipped. *)
Definition int_isspace (c : ascii) : bool :=
  let n := nat_of_ascii c in
  ((9 <=? n) && (n <=? 13) || (n =? 32) || (n =? 133) || (n =? 160))%nat.

Definition upper_char (c : ascii) : ascii :=
  let n := nat_of_ascii c in
  if ((97 <=? n) && (n <=? 122))%nat then ascii_of_nat (n - 32) else c.

Definition lower_char (c : ascii) : ascii :=
  let n := nat_of_ascii c in
  if ((65 <=? n) && (n <=? 90))%nat then ascii_of_nat (n + 32) else c.

Fixpoint map_chars (f : ascii -> ascii) (s : string) : string :=
  match s with
  | EmptyString => EmptyString
  | String c r => String (f c) (map_chars f r)
  end.

(** [s.upper()] and [s.lower()]. *)
Definition upper : string -> string := map_chars upper_char.
Definition lower : string -> string := map_chars lower_char.

Fixpoint lstrip (s : string) : string :=
  match s with
  | EmptyString => EmptyString
  | String c r => if isspace c then lstrip r else s
  end.

Fixpoint rstrip (s : string) : string :=
  match s with
  | EmptyString => EmptyString
  | String c r =>
      match rstrip r with
      | EmptyString => if isspace c then EmptyString else String c EmptyString
      | t => String c t
      end
  end.

(** [s.strip()]. *)
Definition strip (s : string) : string := rstrip (lstrip s).

(** [s.startswith(p)]. *)
Fixpoint startswith (s p : string) : bool :=
  match p, s with
  | EmptyString, _ => true
  | String _ _, EmptyString => false
  | String c p', String d s' => Ascii.eqb d c && startswith s' p'
  end.

(** [s.isdigit()]: every character a digit, and at least one. *)
Fixpoint all_digits (s : string) : bool :=
  match s with
  | EmptyString => true
  | String c r => isdigit_char c && all_digits r
  end.

Definition isdigit (s : string) : bool :=
  match s with
  | EmptyString => false
  | _ => all_digits s
  end.

(** [s[:n]] and [s[-n:]]. *)
Definition first_chars (n : nat) (s : string) : string := substring 0 n s.
Definition last_chars (n : nat) (s : string) : string :=
  substring (String.length s - n) n s.

(** The literal without the whitespace [int] skips in front and behind. *)
Fixpoint int_lstrip (s : string) : string :=
  match s with
  | EmptyString => EmptyString
  | String c r => if int_isspace c then int_lstrip r else s
  end.

Fixpoint int_rstrip (s : string) : string :=
  match s with
  | EmptyString => EmptyString
  | String c r =>
      match int_rstrip r with
      | EmptyString =>
          if int_isspace c then EmptyString else String c EmptyString
      | t => String c t
      end
  end.

(** The digits of an integer literal: decimal digits, with single
    underscores allowed between two digits. [prev] tells whether the
    character before was a digit. *)
Fixpoint int_digits (acc : Z) (prev : bool) (s : string) : option Z :=
  match s with
  | EmptyString => if prev then Some acc else None
  | String c r =>
      if isdecimal_char c
      then int_digits (10 * acc + (Z.of_nat (nat_of_ascii c) - 48)) true r
      else if Ascii.eqb c "_"
           then (if prev then int_digits acc false r else None)
           else None
  end.

(** [int(s)] in base 10; [None] is [ValueError]. Surrounding whitespace
    is ignored and one sign is accepted. *)
Definition int (s : string) : option Z :=
  match int_rstrip (int_lstrip s) with
  | EmptyString => None
  | String c r =>
      if Ascii.eqb c "-" then Z.opp <$> int_digits 0 false r
      else if Ascii.eqb c "+" then int_digits 0 false r
      else int_digits 0 false (String c r)
  end.

End Py.

(** ** Cells *)

(** A cell of an object column; [None] is NaN. *)
Definition cell : Type := option string.

(** [pd.notna]. *)
Definition notna {A} (c : option A) : bool :=
  match c with Some _ => true | None => false end.

(** [str(x)] of a cell: the text itself, and ["nan"] for a missing value. *)
Definition py_str (c : cell) : string :=
  match c with Some s => s | None => "nan" end.

(** [x.fillna("")] on one cell. *)
Definition fillna_empty (c : cell) : string :=
  match c with Some s => s | None => "" end.

(** The result of code that may raise. *)
Inductive exn : Type := ValueError.

Inductive result (A : Type) : Type :=
| Ok (a : A)
| Raise (e : exn).
Arguments Ok {A} a.
Arguments Raise {A} e.

Definition bind {A B} (r : result A) (k : A -> result B) : result B :=
  match r with Ok a => k a | Raise e => Raise e end.

(** ** Keys and rows *)

(** The join key [(id, term_code)], both already text (step 3 of the
    script turns them into trimmed strings). *)
Definition Key : Type := (string * string)%type.

(** The attributes one census snapshot carries for a student-term. *)
Record Snapshot : Type := mkSnapshot {
  majr : cell;
  degr : cell;
  college : cell;
  PROGRAM : cell;
  race_desc : cell;
  ethn_desc : cell;
  visa_desc : cell;
  legal_sex_desc : cell;
  birth_date : cell
}.

(** A snapshot the outer join found no row for: every column NaN. *)
Definition missing_snapshot : Snapshot :=
  mkSnapshot None None None None None None None None None.

(** A row of [df_final]: enrollment joined to the program catalogue. *)
Record EnrollRow : Type := mkEnrollRow {
  e_id : string;
  e_term_code : string;
  census : cell;
  e_snap : Snapshot
}.

(** A row of [w3] or [end]: the key and the selected columns. *)
Record SnapRow : Type := mkSnapRow {
  s_id : string;
  s_term_code : string;
  s_snap : Snapshot
}.

(** A row of [student_term] after the outer merge: the key, the [_w3]
    columns and the [_end] columns. *)
Record Merged : Type := mkMerged {
  id : string;
  term_code : string;
  w3_cols : Snapshot;
  end_cols : Snapshot
}.

Definition majr_w3 (r : Merged) := majr (w3_cols r).
Definition degr_w3 (r : Merged) := degr (w3_cols r).
Definition college_w3 (r : Merged) := college (w3_cols r).
Definition PROGRAM_w3 (r : Merged) := PROGRAM (w3_cols r).
Definition race_desc_w3 (r : Merged) := race_desc (w3_cols r).
Definition ethn_desc_w3 (r : Merged) := ethn_desc (w3_cols r).
Definition visa_desc_w3 (r : Merged) := visa_desc (w3_cols r).
Definition legal_sex_desc_w3 (r : Merged) := legal_sex_desc (w3_cols r).
Definition birth_date_w3 (r : Merged) := birth_date (w3_cols r).
Definition majr_end (r : Merged) := majr (end_cols r).
Definition degr_end (r : Merged) := degr (end_cols r).
Definition college_end (r : Merged) := college (end_cols r).
Definition PROGRAM_end (r : Merged) := PROGRAM (end_cols r).
Definition race_desc_end (r : Merged) := race_desc (end_cols r).
Definition ethn_desc_end (r : Merged) := ethn_desc (end_cols r).
Definition visa_desc_end (r : Merged) := visa_desc (end_cols r).
Definition legal_sex_desc_end (r : Merged) := legal_sex_desc (end_cols r).
Definition birth_date_end (r : Merged) := birth_date (end_cols r).

(** ** Step 5f: race/ethnicity *)

Definition NON_INTL_VISA_TYPES : gset string := {[ "PR"; "RF"; "AS" ]}.

(** [a if pd.notna(a) else b]: the WK3 value unless it is NaN. *)
Definition prefer_w3 (w3 end_ : cell) : cell :=
  if notna w3 then w3 else end_.

(** [str(x).strip() if (pd.notna(x) and str(x).strip() != "") else ""]. *)
Definition clean (raw : cell) : string :=
  if notna raw && negb (String.eqb (Py.strip (py_str raw)) "")
  then Py.strip (py_str raw) else "".

(** The same with [.upper()] after the strip, as for the visa. *)
Definition clean_upper (raw : cell) : string :=
  if notna raw && negb (String.eqb (Py.strip (py_str raw)) "")
  then Py.upper (Py.strip (py_str raw)) else "".

Definition visa_raw (row : Merged) : cell :=
  prefer_w3 (visa_desc_w3 row) (visa_desc_end row).
Definition ethn_raw (row : Merged) : cell :=
  prefer_w3 (ethn_desc_w3 row) (ethn_desc_end row).
Definition race_raw (row : Merged) : cell :=
  prefer_w3 (race_desc_w3 row) (race_desc_end row).

(** The locals [visa], [ethn] and [race] of [_race_ethnicity_du]. *)
Definition visa (row : Merged) : string := clean_upper (visa_raw row).
Definition ethn (row : Merged) : string := clean (ethn_raw row).
Definition race (row : Merged) : string := clean (race_raw row).

(** Truth value of a Python string: non-empty. *)
Definition truthy (s : string) : bool := negb (String.eqb s "").

Definition _race_ethnicity_du (row : Merged) : string :=
  if truthy (visa row) && negb (bool_decide (visa row ∈ NON_INTL_VISA_TYPES))
  then "International"
  else if String.eqb (Py.lower (ethn row)) "hispanic or latino"
  then "Hispanic or Latino"
  else if truthy (race row) then race row else "Unknown".

(** ** Step 5e: age at the term's as-of date *)

Record Timestamp : Type := mkTimestamp {
  year : Z;
  month : Z;
  day : Z
}.

(** [datetime.MINYEAR] and [datetime.MAXYEAR]. *)
Definition MINYEAR : Z := 1.
Definition MAXYEAR : Z := 9999.

Definition is_leap (y : Z) : bool :=
  (y mod 4 =? 0) && (negb (y mod 100 =? 0) || (y mod 400 =? 0)).

Definition days_in_month (y m : Z) : Z :=
  if m =? 2 then (if is_leap y then 29 else 28)
  else if (m =? 4) || (m =? 6) || (m =? 9) || (m =? 11) then 30 else 31.

(** [pd.Timestamp(year=y, month=m, day=d)]. The constructor first builds
    a [datetime] from the three fields, and [datetime] raises
    [ValueError] for a year outside [MINYEAR..MAXYEAR], a month outside
    [1..12] or a day the month does not have. Every [datetime] is in the
    range of a timestamp of pandas 2, which the script's Python 3.13 needs. *)
Definition Timestamp_new (y m d : Z) : result Timestamp :=
  if (MINYEAR <=? y) && (y <=? MAXYEAR) && (1 <=? m) && (m <=? 12)
     && (1 <=? d) && (d <=? days_in_month y m)
  then Ok (mkTimestamp y m d)
  else Raise ValueError.

(** Fall=Oct, Spring=Mar, Summer=Jul. *)
Definition _TERM_ASOF_MONTH : gmap Z Z :=
  list_to_map [(10, 10); (70, 10); (20, 3); (30, 7); (40, 7); (50, 7)].

(** [None] is [pd.NaT]. The [int] of the year is outside the [try], so
    its [ValueError] would propagate; the one of the suffix is caught. *)
Definition _asof_from_term (term_code : string) : result (option Timestamp) :=
  let s := term_code in
  if (6 <=? String.length s)%nat && Py.isdigit (Py.first_chars 4 s) then
    match Py.int (Py.first_chars 4 s) with
    | None => Raise ValueError
    | Some year =>
        match Py.int (Py.last_chars 2 s) with
        | None => Ok None
        | Some suff =>
            let month := default 10 (_TERM_ASOF_MONTH !! suff) in
            bind (Timestamp_new year month 1) (fun ts => Ok (Some ts))
        end
    end
  else Ok None.

(** Python's order on pairs: [(a1, a2) < (b1, b2)]. *)
Definition pair_ltb (a b : Z * Z) : bool :=
  (a.1 <? b.1) || ((a.1 =? b.1) && (a.2 <? b.2)).

Section Age.

(** [pd.to_datetime(s, errors="coerce")] on a text: the library's date
    parser, [None] for [NaT]. It is a parameter of the model. *)
Variable parse_datetime : string -> option Timestamp.

(** On a cell: a missing value converts to [NaT]. *)
Definition to_datetime (c : cell) : option Timestamp :=
  match c with Some s => parse_datetime s | None => None end.

(** [Ok None] is [np.nan]. *)
Definition _age_years (dob_w3 dob_end : cell) (term_code : string)
  : result (option Z) :=
  let dob := prefer_w3 dob_w3 dob_end in
  let dt := to_datetime dob in
  bind (_asof_from_term term_code) (fun asof =>
    match dt, asof with
    | Some dt, Some asof =>
        let years := year asof - year dt in
        if pair_ltb (month asof, day asof) (month dt, day dt)
        then Ok (Some (years - 1))
        else Ok (Some years)
    | _, _ => Ok None
    end).

Definition age (r : Merged) : result (option Z) :=
  _age_years (birth_date_w3 r) (birth_date_end r) (term_code r).

End Age.

(** The month of the as-of date in words: 10 and 70 are October, 20 is
    March, 30, 40 and 50 are July, and any other suffix is October. *)
Definition asof_month_spec (suff : Z) : Z :=
  if suff =? 10 then 10
  else if suff =? 70 then 10
  else if suff =? 20 then 3
  else if suff =? 30 then 7
  else if suff =? 40 then 7
  else if suff =? 50 then 7
  else 10.

(** The age in words: the year difference, less one when the as-of
    (month, day) comes before the birth (month, day). *)
Definition age_at (asof_year asof_month asof_day : Z) (dt : Timestamp) : Z :=
  asof_year - year dt
  - (if bool_decide (asof_month < month dt
                     \/ (asof_month = month dt /\ asof_day < day dt))
     then 1 else 0).

(** A parser for the ISO calendar form [YYYY-MM-DD], one of the forms
    [pd.to_datetime] reads; it instantiates [parse_datetime] where a
    concrete parser is needed. *)
Definition iso_date (s : string) : option Timestamp :=
  if (String.length s =? 10)%nat
     && Py.isdigit (substring 0 4 s) && String.eqb (substring 4 1 s) "-"
     && Py.isdigit (substring 5 2 s) && String.eqb (substring 7 1 s) "-"
     && Py.isdigit (substring 8 2 s)
  then
    match Py.int (substring 0 4 s), Py.int (substring 5 2 s),
          Py.int (substring 8 2 s) with
    | Some y, Some m, Some d =>
        match Timestamp_new y m d with Ok t => Some t | Raise _ => None end
    | _, _, _ => None
    end
  else None.

(** ** Step 5a: term GPA from letter grades *)

Record GradeRow : Type := mkGradeRow {
  g_id : string;
  g_term_code : string;
  final_course_grade : cell
}.

(** A row of [grades_gpa]: the grade as trimmed text and its points. *)
Record GpaRow : Type := mkGpaRow {
  p_id : string;
  p_term_code : string;
  p_final_course_grade : string;
  grade_points : Q
}.

Definition g_key (r : GradeRow) : Key := (g_id r, g_term_code r).
Definition p_key (r : GpaRow) : Key := (p_id r, p_term_code r).

Definition grade_points_items : list (string * Q) :=
  [("A", 4.0%Q); ("A-", 3.7%Q);
   ("B+", 3.3%Q); ("B", 3.0%Q); ("B-", 2.7%Q);
   ("C+", 2.3%Q); ("C", 2.0%Q); ("C-", 1.7%Q);
   ("D+", 1.3%Q); ("D", 1.0%Q); ("F", 0.0%Q)].

Definition GRADE_POINTS : gmap string Q := list_to_map grade_points_items.

(** [final_course_grade.astype(str).str.strip()] on one row. *)
Definition letter_grade (r : GradeRow) : string :=
  Py.strip (py_str (final_course_grade r)).

(** [grades_gpa]: the trimmed grade, its points through the dictionary,
    and [dropna] on the points. *)
Definition to_gpa_row (r : GradeRow) : option GpaRow :=
  (fun p => mkGpaRow (g_id r) (g_term_code r) (letter_grade r) p)
    <$> GRADE_POINTS !! letter_grade r.

Definition grades_gpa (grades : list GradeRow) : list GpaRow :=
  omap to_gpa_row grades.

(** [df.groupby(key)]: the rows of each key, in row order. *)
Fixpoint groupby {A : Type} (key : A -> Key) (rows : list A)
  : gmap Key (list A) :=
  match rows with
  | [] => ∅
  | r :: rs =>
      let m := groupby key rs in
      <[key r := r :: default [] (m !! key r)]> m
  end.

Definition Qsum (l : list Q) : Q := foldr Qplus 0%Q l.

(** The aggregate ["mean"]. *)
Definition mean (l : list Q) : Q :=
  (Qsum l / inject_Z (Z.of_nat (length l)))%Q.

(** A row of the frame [term_gpa], without its key. *)
Record TermGpa : Type := mkTermGpa {
  term_gpa_value : Q;
  course_count : nat
}.

(** [term_gpa]: one row per key of [grades_gpa]. *)
Definition term_gpa (grades : list GradeRow) : gmap Key TermGpa :=
  (fun g => mkTermGpa (mean (grade_points <$> g)) (length g))
    <$> groupby p_key (grades_gpa grades).

(** The reading of the term GPA in words: the rows of the key [k] whose
    letter grade is a key of the dictionary, and their points. *)
Definition contributes (r : GradeRow) : Prop :=
  is_Some (GRADE_POINTS !! letter_grade r).

Global Instance contributes_dec (r : GradeRow) : Decision (contributes r) :=
  is_Some_dec (GRADE_POINTS !! letter_grade r).

Definition contributing (k : Key) (grades : list GradeRow) : list GradeRow :=
  filter (fun r => g_key r = k /\ contributes r) grades.

Definition points_of (rows : list GradeRow) : list Q :=
  omap (fun r => GRADE_POINTS !! letter_grade r) rows.

(** ** Frames: sorting and de-duplicating on the key *)

(** Python's order on the tuples [(id, term_code)]. *)
Definition key_compare (a b : Key) : comparison :=
  match String.compare a.1 b.1 with
  | Eq => String.compare a.2 b.2
  | c => c
  end.

Definition key_leb (a b : Key) : bool :=
  match key_compare a b with Gt => false | _ => true end.

Section Frame.

Context {A : Type} (key : A -> Key).

(** One step of a stable sort: [x], which comes before the rows of
    [l] in the frame, goes in front of the first row whose key is not
    smaller than its own. *)
Fixpoint insert_row (x : A) (l : list A) : list A :=
  match l with
  | [] => [x]
  | y :: l' =>
      if key_leb (key x) (key y) then x :: y :: l'
      else y :: insert_row x l'
  end.

(** [df.sort_values(["id", "term_code"])]: sorting on several columns
    is stable in pandas. *)
Definition sort_values (l : list A) : list A := foldr insert_row [] l.

(** [keep="first"]: a row stays unless its key was seen before. *)
Fixpoint drop_seen (seen : gset Key) (l : list A) : list A :=
  match l with
  | [] => []
  | x :: l' =>
      if bool_decide (key x ∈ seen) then drop_seen seen l'
      else x :: drop_seen ({[key x]} ∪ seen) l'
  end.

(** [df.drop_duplicates(["id", "term_code"])]. *)
Definition drop_duplicates (l : list A) : list A := drop_seen ∅ l.

(** [df.duplicated(subset=["id", "term_code"], keep=False)]: one flag
    per row, set when another row has the same key. *)
Definition duplicated (l : list A) : list bool :=
  (fun x => bool_decide (1 < length (filter (fun y => key y = key x) l))%nat)
    <$> l.

End Frame.

(** The rows of [l] whose key is [k], in row order. *)
Abbreviation with_key key k := (filter (fun y => key y = k)).

(** The first row of a frame, as a frame. *)
Abbreviation first_row l := (take 1 l).

(** Rows in ascending key order, and in strictly ascending key order, for
    Python's order on tuples of strings. *)
Definition key_ordered {A : Type} (key : A -> Key) (a b : A) : Prop :=
  key_leb (key a) (key b) = true.

Definition key_before {A : Type} (key : A -> Key) (a b : A) : Prop :=
  key_compare (key a) (key b) = Lt.

(** ** Step 5b: the census split *)

Definition e_key (r : EnrollRow) : Key := (e_id r, e_term_code r).
Definition s_key (r : SnapRow) : Key := (s_id r, s_term_code r).
Definition m_key (r : Merged) : Key := (id r, term_code r).

(** The column selection and renaming after the split. *)
Definition select_snapshot (r : EnrollRow) : SnapRow :=
  mkSnapRow (e_id r) (e_term_code r) (e_snap r).

(** [df_final[df_final["census"] == tag]], sorted, de-duplicated and
    projected. *)
Definition census_frame (tag : string) (df_final : list EnrollRow)
  : list SnapRow :=
  select_snapshot
    <$> drop_duplicates e_key
          (sort_values e_key
             (filter (fun r => census r = Some tag) df_final)).

Definition w3 (df_final : list EnrollRow) : list SnapRow :=
  census_frame "WK3" df_final.

Definition end_ (df_final : list EnrollRow) : list SnapRow :=
  census_frame "EOT" df_final.

(** The first row of [df_final] with the key [k] and the census [tag]. *)
Definition first_of (tag : string) (k : Key) (df_final : list EnrollRow)
  : option EnrollRow :=
  head (filter (fun r => e_key r = k /\ census r = Some tag) df_final).

(** ** Step 5c: the outer merge *)

Definition both (l r : SnapRow) : Merged :=
  mkMerged (s_id l) (s_term_code l) (s_snap l) (s_snap r).
Definition left_only (l : SnapRow) : Merged :=
  mkMerged (s_id l) (s_term_code l) (s_snap l) missing_snapshot.
Definition right_only (r : SnapRow) : Merged :=
  mkMerged (s_id r) (s_term_code r) missing_snapshot (s_snap r).

(** [pd.merge(left, right, on=["id", "term_code"], how="outer")]: each
    left row with each right row of its key, or alone when there is
    none; then the right rows whose key no left row has; the result in
    key order. *)
Definition join_left (right : list SnapRow) (k : Key) (l : SnapRow)
  : list Merged :=
  match with_key s_key k right with
  | [] => [left_only l]
  | ms => both l <$> ms
  end.

Definition merge_outer (left right : list SnapRow) : list Merged :=
  sort_values m_key
    ((left ≫= fun l => join_left right (s_key l) l)
     ++ (right_only
           <$> filter (fun r => s_key r ∉ (s_key <$> left)) right)).

Definition student_term (df_final : list EnrollRow) : list Merged :=
  merge_outer (w3 df_final) (end_ df_final).

(** ** Step 5c: flags and resolved attributes *)

Definition enrolled_w3 (r : Merged) : bool :=
  notna (majr_w3 r) || notna (degr_w3 r) || notna (college_w3 r).

Definition enrolled_end (r : Merged) : bool :=
  notna (majr_end r) || notna (degr_end r) || notna (college_end r).

Definition persisted_w3_to_end (r : Merged) : bool :=
  enrolled_w3 r && enrolled_end r.

Definition undeclared_to_declared (r : Merged) : bool :=
  persisted_w3_to_end r
  && Py.startswith (Py.upper (fillna_empty (majr_w3 r))) "UN"
  && negb (Py.startswith (Py.upper (fillna_empty (majr_end r))) "UN").

(** [np.where(cond, a, b)] on one row. *)
Definition np_where {A : Type} (cond : bool) (a b : A) : A :=
  if cond then a else b.

Definition program (r : Merged) : cell :=
  np_where (enrolled_end r) (PROGRAM_end r) (PROGRAM_w3 r).
Definition degree (r : Merged) : cell :=
  np_where (enrolled_end r) (degr_end r) (degr_w3 r).
Definition major (r : Merged) : cell :=
  np_where (enrolled_end r) (majr_end r) (majr_w3 r).
Definition resolved_college (r : Merged) : cell :=
  np_where (enrolled_end r) (college_end r) (college_w3 r).
Definition gender (r : Merged) : cell :=
  np_where (notna (legal_sex_desc_end r))
           (legal_sex_desc_end r) (legal_sex_desc_w3 r).

(** ** Step 6: the student-level table *)

(** A row of [student_level], with the columns of the export. *)
Record StudentLevel : Type := mkStudentLevel {
  sl_id : string;
  sl_term_code : string;
  sl_gender : cell;
  sl_race_ethnicity : string;
  sl_age : option Z;
  sl_college : cell;
  sl_degree : cell;
  sl_major : cell;
  sl_program : cell;
  sl_term_gpa : option Q;
  sl_course_count : option nat;
  sl_persisted_w3_to_end : bool;
  sl_undeclared_to_declared : bool
}.

Definition sl_key (r : StudentLevel) : Key := (sl_id r, sl_term_code r).

(** "Ensure one row per student-term": when some row is flagged a
    duplicate, keep the first occurrence of every key. *)
Definition ensure_one_row (student_level : list StudentLevel)
  : list StudentLevel :=
  let dups := duplicated sl_key student_level in
  if existsb (fun b => b) dups
  then drop_duplicates sl_key student_level
  else student_level.

(** ** Step 3: keys, coverage and the grade counts *)

(** A row of [fall_enrollment] as read from the file. *)
Record Enrollment : Type := mkEnrollment {
  f_id : cell;
  f_term_code : cell;
  f_census : cell;
  f_college : cell;
  f_degr : cell;
  f_majr : cell;
  f_race_desc : cell;
  f_ethn_desc : cell;
  f_visa_desc : cell;
  f_legal_sex_desc : cell;
  f_birth_date : cell
}.

(** A row of [grades] as read from the file. *)
Record RawGrade : Type := mkRawGrade {
  rg_id : cell;
  rg_term_code : cell;
  rg_final_course_grade : cell
}.

(** [df[col].astype(str).str.strip()] on one cell of [id] or
    [term_code]. *)
Definition normalize_key (c : cell) : string := Py.strip (py_str c).

(** The key of an enrollment row after the normalization. *)
Definition f_key (f : Enrollment) : Key :=
  (normalize_key (f_id f), normalize_key (f_term_code f)).

(** A grade row after the normalization of its key columns. *)
Definition normalize_grade (r : RawGrade) : GradeRow :=
  mkGradeRow (normalize_key (rg_id r)) (normalize_key (rg_term_code r))
             (rg_final_course_grade r).

(** The coverage check. *)
Definition enroll_keys (fall_enrollment : list Enrollment) : gset Key :=
  list_to_set (f_key <$> fall_enrollment).

Definition grade_keys (grades : list GradeRow) : gset Key :=
  list_to_set (g_key <$> grades).

Definition matched (fall_enrollment : list Enrollment)
           (grades : list GradeRow) : gset Key :=
  enroll_keys fall_enrollment ∩ grade_keys grades.

(** [grades_term]: the number of grade rows of every key, before any
    filter on the grade. *)
Definition grades_term (grades : list GradeRow) : gmap Key nat :=
  length <$> groupby g_key grades.

(** [enroll_plus_gr]: the left join of the enrollment rows to
    [grades_term]. The right frame has one row per key, so the [m:1]
    validation passes and every enrollment row gets the count of its key,
    or a missing value. *)
Definition enroll_plus_gr (fall_enrollment : list Enrollment)
           (grades : list GradeRow) : list (Enrollment * option nat) :=
  (fun f => (f, grades_term grades !! f_key f)) <$> fall_enrollment.

(** ** Step 4: the program of a (college, degree, major) *)

(** A row of [program_data]. *)
Record ProgramRow : Type := mkProgramRow {
  COLLEGE : cell;
  DEGREE : cell;
  MAJOR : cell;
  pd_PROGRAM : cell
}.

(** [x.astype(str).str.strip().str.upper()] on one cell. *)
Definition text_key (c : cell) : string := Py.upper (Py.strip (py_str c)).

Definition Key3 : Type := (string * string * string)%type.

Definition enroll_key3 (f : Enrollment) : Key3 :=
  (text_key (f_college f), text_key (f_degr f), text_key (f_majr f)).

Definition program_key3 (p : ProgramRow) : Key3 :=
  (text_key (COLLEGE p), text_key (DEGREE p), text_key (MAJOR p)).

(** The result of a validated merge: the frame, or [MergeError]. *)
Inductive merge_result (A : Type) : Type :=
| MergeOk (a : A)
| MergeError.
Arguments MergeOk {A} a.
Arguments MergeError {A}.

Section LeftMerge.

Context {L R K : Type} `{EqDecision K} (lkey : L -> K) (rkey : R -> K).

(** [left.merge(right, on=key, how="left")]: the left rows in their
    order, each with every right row of its key, or with a missing right
    side when there is none. *)
Definition merge_left (left : list L) (right : list R)
  : list (L * option R) :=
  left ≫= fun l =>
    match filter (fun r => rkey r = lkey l) right with
    | [] => [(l, None)]
    | ms => (fun r => (l, Some r)) <$> ms
    end.

(** With [validate="m:1"]: [MergeError] unless the keys of the right
    frame are unique. *)
Definition merge_left_m1 (left : list L) (right : list R)
  : merge_result (list (L * option R)) :=
  if bool_decide (NoDup (rkey <$> right))
  then MergeOk (merge_left left right)
  else MergeError.

End LeftMerge.

(** A row of [df_final] from an enrollment row and the catalogue row the
    join found for it. *)
Definition with_program (f : Enrollment) (p : option ProgramRow)
  : EnrollRow :=
  mkEnrollRow (normalize_key (f_id f)) (normalize_key (f_term_code f))
    (f_census f)
    (mkSnapshot (f_majr f) (f_degr f) (f_college f) (p ≫= pd_PROGRAM)
       (f_race_desc f) (f_ethn_desc f) (f_visa_desc f)
       (f_legal_sex_desc f) (f_birth_date f)).

Definition df_final (enroll_plus : list (Enrollment * option nat))
           (program_data : list ProgramRow)
  : merge_result (list EnrollRow) :=
  match merge_left_m1 (fun x => enroll_key3 x.1) program_key3
          enroll_plus program_data with
  | MergeOk rows => MergeOk ((fun x => with_program x.1.1 x.2) <$> rows)
  | MergeError => MergeError
  end.

(** [df_final] in words, for a catalogue that passes the validation: every
    enrollment row once, with the program of the first catalogue row of
    its key, or none. *)
Definition df_final_rows (enroll_plus : list (Enrollment * option nat))
           (program_data : list ProgramRow) : list EnrollRow :=
  (fun x =>
     with_program x.1
       (head (filter (fun p => program_key3 p = enroll_key3 x.1)
                program_data)))
    <$> enroll_plus.

(** ** Steps 5e to 6: the rows of the export *)

Section ExportRows.

Variable parse_datetime : string -> option Timestamp.

(** [Series.round(2)] on one GPA; the rounding of floats is a parameter. *)
Variable round2 : Q -> Q.

(** [student_term.apply(lambda r: _age_years(...), axis=1)]: the ages
    row by row; the first exception ends the run. *)
Fixpoint apply_age (rows : list Merged)
  : result (list (Merged * option Z)) :=
  match rows with
  | [] => Ok []
  | m :: ms =>
      bind (age parse_datetime m) (fun a =>
        bind (apply_age ms) (fun r => Ok ((m, a) :: r)))
  end.

(** The left join to [term_gpa] and the projection to the exported
    columns, with the GPA rounded. *)
Definition student_level_row (gpa : gmap Key TermGpa)
           (x : Merged * option Z) : StudentLevel :=
  let m := x.1 in
  mkStudentLevel (id m) (term_code m) (gender m) (_race_ethnicity_du m)
    x.2 (resolved_college m) (degree m) (major m) (program m)
    (round2 <$> (term_gpa_value <$> gpa !! m_key m))
    (course_count <$> gpa !! m_key m)
    (persisted_w3_to_end m) (undeclared_to_declared m).

Definition student_level (grades : list GradeRow)
           (df_final : list EnrollRow) : result (list StudentLevel) :=
  bind (apply_age (student_term df_final)) (fun rows =>
    Ok (ensure_one_row (student_level_row (term_gpa grades) <$> rows))).

End ExportRows.

(** ** The analysis script: head counts and rates *)

(** [int(df[col].sum())] on a column of booleans. *)
Definition count_true (col : StudentLevel -> bool)
           (df : list StudentLevel) : nat :=
  length (filter (fun r => col r = true) df).

(** [a / b if b else np.nan]; [None] is [np.nan]. *)
Definition ratio (a b : nat) : option Q :=
  match b with
  | O => None
  | S _ => Some (inject_Z (Z.of_nat a) / inject_Z (Z.of_nat b))%Q
  end.

Definition total_students (df : list StudentLevel) : nat := length df.

Definition persisted (df : list StudentLevel) : nat :=
  count_true sl_persisted_w3_to_end df.

Definition persistence_rate (df : list StudentLevel) : option Q :=
  ratio (persisted df) (total_students df).

Definition n_undecl_to_decl (df : list StudentLevel) : nat :=
  count_true sl_undeclared_to_declared df.

Definition persisters (df : list StudentLevel) : nat :=
  count_true sl_persisted_w3_to_end df.

Definition prop_of_total (df : list StudentLevel) : option Q :=
  ratio (n_undecl_to_decl df) (total_students df).

Definition prop_of_persisters (df : list StudentLevel) : option Q :=
  ratio (n_undecl_to_decl df) (persisters df).

(** [df.groupby(col)] on a column with missing values: the rows of each
    value in row order; a row with a missing value is in no group. *)
Fixpoint groupby_col {A K : Type} `{Countable K} (col : A -> option K)
         (rows : list A) : gmap K (list A) :=
  match rows with
  | [] => ∅
  | r :: rs =>
      let m := groupby_col col rs in
      match col r with
      | Some k => <[k := r :: default [] (m !! k)]> m
      | None => m
      end
  end.

(** A row of [by_gender]: the aggregates ["count"] and ["sum"] of the
    persistence flag. *)
Record GenderRow : Type := mkGenderRow {
  n_total : nat;
  n_persisted : nat
}.

Definition by_gender (df : list StudentLevel) : gmap string GenderRow :=
  (fun g => mkGenderRow (length g) (count_true sl_persisted_w3_to_end g))
    <$> groupby_col sl_gender df.

(** The guard of the two-proportion test:
    [{"Male", "Female"}.issubset(set(tbl_gender["gender"]))]. *)
Definition ztest_runs (df : list StudentLevel) : bool :=
  bool_decide ({[ "Male"; "Female" ]} ⊆ dom (by_gender df)).

(** Dates in calendar order. *)
Definition date_le (a b : Timestamp) : Prop :=
  year a < year b
  \/ (year a = year b
      /\ (month a < month b \/ (month a = month b /\ day a <= day b))).

(** The birthday [n] years after the birth date [dt]. *)
Definition birthday (dt : Timestamp) (n : Z) : Timestamp :=
  mkTimestamp (year dt + n) (month dt) (day dt).

(** ** Concrete rows *)

(** A merged row that has only the three descriptions, in WK3 and EOT. *)
Definition desc_row (visa_w3 visa_end ethn_w3 race_w3 : cell) : Merged :=
  mkMerged "1001" "202410"
    (mkSnapshot None None None None race_w3 ethn_w3 visa_w3 None None)
    (mkSnapshot None None None None None None visa_end None None).

(** No visa on record and the race text "International". *)
Definition row_race_international : Merged :=
  desc_row None None None (Some "International").

(** A student visa, with an ethnicity and a race recorded as well. *)
Definition row_f1 : Merged :=
  desc_row (Some " f1 ") None (Some "Hispanic or Latino") (Some "White").

(** A blank WK3 visa and the visa "F1" at the end of term. *)
Definition row_blank_w3_visa : Merged :=
  desc_row (Some "  ") (Some "F1") None (Some "White").

(** A snapshot with a major and a college only. *)
Definition major_college (m c : string) : Snapshot :=
  mkSnapshot (Some m) None (Some c) None None None None None None.

(** Two student-level rows of one student-term that differ in the major. *)
Definition sl_first : StudentLevel :=
  mkStudentLevel "1001" "202410" (Some "F") "White" (Some 19)
    (Some "ARTS") (Some "BA") (Some "BIOLOGY") None None None true false.

Definition sl_second : StudentLevel :=
  mkStudentLevel "1001" "202410" (Some "F") "White" (Some 19)
    (Some "ARTS") (Some "BA") (Some "HISTORY") None None None true false.

(** A small [df_final]: student 1001 in both snapshots (twice at the end
    of term), student 1002 at WK3 only, and a row with an unknown tag. *)
Definition df_example : list EnrollRow :=
  [ mkEnrollRow "1002" "202410" (Some "WK3") (major_college "HISTORY" "ARTS");
    mkEnrollRow "1001" "202410" (Some "EOT") (major_college "BIOLOGY" "ARTS");
    mkEnrollRow "1001" "202410" (Some "WK3") (major_college "UNDECIDED" "ARTS");
    mkEnrollRow "1003" "202410" (Some "MID") (major_college "MUSIC" "ARTS");
    mkEnrollRow "1001" "202410" (Some "EOT") (major_college "CHEMISTRY" "ARTS") ].

(** Grade rows of one student-term: two letter grades with whitespace
    around them, a withdrawal and a missing grade. *)
Definition grades_example : list GradeRow :=
  [ mkGradeRow "1001" "202410" (Some " A ");
    mkGradeRow "1001" "202410" (Some "W");
    mkGradeRow "1001" "202410" (Some "B+ ");
    mkGradeRow "1001" "202410" None ].

(** An enrollment row with only the key, the tag and the program
    columns. *)
Definition enrollment_of (i t tag c d m : string) : Enrollment :=
  mkEnrollment (Some i) (Some t) (Some tag) (Some c) (Some d) (Some m)
    None None None None None.

(** A catalogue with one program, and one that lists it twice under
    spellings that differ in case and whitespace only. *)
Definition catalogue_ok : list ProgramRow :=
  [ mkProgramRow (Some "ARTS") (Some "BA") (Some "BIOLOGY")
      (Some "Life Sciences") ].

Definition catalogue_twice : list ProgramRow :=
  [ mkProgramRow (Some "ARTS") (Some "BA") (Some "BIOLOGY")
      (Some "Life Sciences");
    mkProgramRow (Some "HUM") (Some "BA") (Some "HISTORY") (Some "History");
    mkProgramRow (Some " arts") (Some "ba") (Some "Biology ")
      (Some "Biology") ].

Definition enroll_plus_example : list (Enrollment * option nat) :=
  [ (enrollment_of "1001" "202410" "WK3" "arts " "ba" "biology", Some 2%nat);
    (enrollment_of "1002" "202410" "WK3" "ARTS" "BA" "MUSIC", None) ].

(** A [df_final] whose only row has a term code with the year 0000. *)
Definition df_year_zero : list EnrollRow :=
  [ mkEnrollRow "1001" "000010" (Some "WK3")
      (major_college "HISTORY" "ARTS") ].

(** An exported table with one woman, one man and one row without a
    gender. *)
Definition sl_of_gender (i : string) (g : cell) (p : bool) : StudentLevel :=
  mkStudentLevel i "202410" g "White" (Some 19)
    (Some "ARTS") (Some "BA") (Some "BIOLOGY") None None None p false.

Definition df_genders : list StudentLevel :=
  [ sl_of_gender "1001" (Some "Female") true;
    sl_of_gender "1002" None true;
    sl_of_gender "1003" (Some "Male") false ].

(** Two term codes with a character outside the letters and digits: the
    year 2022 before the separator FS (code 28) and a 5, and four
    superscript twos (code 178) before the suffix 10. *)
Definition term_code_fs : string :=
  "2022" ++ String (ascii_of_nat 28) "5".

Definition term_code_superscript : string :=
  String (ascii_of_nat 178) (String (ascii_of_nat 178)
    (String (ascii_of_nat 178) (String (ascii_of_nat 178) "10"))).

(** A [df_final] whose only row has the term code of superscripts. *)
Definition df_superscript : list EnrollRow :=
  [ mkEnrollRow "1001" term_code_superscript (Some "EOT")
      (major_college "HISTORY" "ARTS") ].

(** * Properties *)

(** ** Text lemmas *)

Lemma truthy_true (s : string) : truthy s = true <-> s <> "".
Proof.
  unfold truthy. destruct (String.eqb_spec s ""); simpl; split; congruence.
Qed.

Lemma map_chars_empty (f : ascii -> ascii) (s : string) :
  Py.map_chars f s = "" -> s = "".
Proof. destruct s; simpl; [done | discriminate]. Qed.

Lemma startswith_UN (s : string) :
  Py.startswith s "UN" = true <-> exists t, s = "UN" ++ t.
Proof.
  split.
  - destruct s as [|a [|b t]]; simpl; try discriminate.
    + rewrite andb_false_r. discriminate.
    + intros [Ha Hb]%andb_prop. apply andb_prop in Hb as [Hb _].
      apply Ascii.eqb_eq in Ha, Hb. subst. by exists t.
  - intros [t ->]. simpl. by destruct t.
Qed.

(** ** Race/ethnicity *)

Lemma clean_cases (raw : cell) :
  match raw with
  | None => clean raw = ""
  | Some s => clean raw = Py.strip s
  end.
Proof.
  destruct raw as [s|]; [|done]. unfold clean. simpl.
  by destruct (String.eqb_spec (Py.strip s) "") as [->|].
Qed.

Lemma clean_upper_cases (raw : cell) :
  match raw with
  | None => clean_upper raw = ""
  | Some s => clean_upper raw = Py.upper (Py.strip s)
  end.
Proof.
  destruct raw as [s|]; [|done]. unfold clean_upper. simpl.
  by destruct (String.eqb_spec (Py.strip s) "") as [->|].
Qed.

(** The cleaned visa is empty exactly when the raw value is missing or
    blank. *)
Lemma clean_upper_blank (raw : cell) :
  clean_upper raw = "" <->
  match raw with None => True | Some s => Py.strip s = "" end.
Proof.
  pose proof (clean_upper_cases raw) as H. destruct raw as [s|]; rewrite H.
  - split; [apply map_chars_empty | by intros ->].
  - done.
Qed.

Lemma resolved_cases (w3v endv : cell) (norm : string -> string)
      (f : cell -> string) :
  (forall raw, match raw with None => f raw = "" | Some s => f raw = norm s end) ->
  (forall s, w3v = Some s -> f (prefer_w3 w3v endv) = norm s)
  /\ (w3v = None ->
      match endv with
      | Some s => f (prefer_w3 w3v endv) = norm s
      | None => f (prefer_w3 w3v endv) = ""
      end).
Proof.
  intros Hf. split.
  - intros s ->. apply (Hf (Some s)).
  - intros ->. simpl. pose proof (Hf endv) as H. by destruct endv.
Qed.

(** C2 (amended). Each description is resolved as the WK3 value whenever
    that value is present, blank or not, and as the EOT value only when
    the WK3 value is missing; the chosen text is trimmed (and upper-cased
    for the visa), a missing one becomes the empty text. So a WK3 value
    that is present but blank resolves to the empty text, whatever the
    EOT value is. *)
Theorem resolve_prefers_present_w3 (row : Merged) :
  ((forall s, visa_desc_w3 row = Some s -> visa row = Py.upper (Py.strip s))
   /\ (visa_desc_w3 row = None ->
       match visa_desc_end row with
       | Some s => visa row = Py.upper (Py.strip s)
       | None => visa row = ""
       end))
  /\ ((forall s, ethn_desc_w3 row = Some s -> ethn row = Py.strip s)
      /\ (ethn_desc_w3 row = None ->
          match ethn_desc_end row with
          | Some s => ethn row = Py.strip s
          | None => ethn row = ""
          end))
  /\ ((forall s, race_desc_w3 row = Some s -> race row = Py.strip s)
      /\ (race_desc_w3 row = None ->
          match race_desc_end row with
          | Some s => race row = Py.strip s
          | None => race row = ""
          end))
  /\ (forall s, visa_desc_w3 row = Some s -> Py.strip s = "" -> visa row = "")
  /\ (forall s, ethn_desc_w3 row = Some s -> Py.strip s = "" -> ethn row = "")
  /\ (forall s, race_desc_w3 row = Some s -> Py.strip s = "" -> race row = "").
Proof.
  pose proof (resolved_cases (visa_desc_w3 row) (visa_desc_end row)
                (fun s => Py.upper (Py.strip s)) clean_upper clean_upper_cases)
    as Hv.
  pose proof (resolved_cases (ethn_desc_w3 row) (ethn_desc_end row)
                Py.strip clean clean_cases) as He.
  pose proof (resolved_cases (race_desc_w3 row) (race_desc_end row)
                Py.strip clean clean_cases) as Hr.
  repeat split; try apply Hv; try apply He; try apply Hr.
  - intros s Hs Hb. destruct Hv as [Hv _].
    etrans; [apply (Hv s Hs) | by rewrite Hb].
  - intros s Hs Hb. destruct He as [He _]. etrans; [apply (He s Hs) | done].
  - intros s Hs Hb. destruct Hr as [Hr _]. etrans; [apply (Hr s Hs) | done].
Qed.

Lemma resolve_prefers_present_w3_witness :
  visa row_blank_w3_visa = "" /\ visa row_f1 = "F1".
Proof.
  destruct (resolve_prefers_present_w3 row_blank_w3_visa)
    as (_ & _ & _ & Hblank & _).
  destruct (resolve_prefers_present_w3 row_f1) as ((Hv & _) & _).
  split.
  - apply (Hblank "  "); reflexivity.
  - apply (Hv " f1 "). reflexivity.
Defined.

(** C2, as stated, fails: the WK3 visa is present but blank, the EOT visa
    is "F1", and the resolved visa is the empty text, not the EOT value. *)
Lemma blank_w3_does_not_fall_back :
  visa_desc_w3 row_blank_w3_visa = Some "  "
  /\ Py.strip "  " = ""
  /\ visa_desc_end row_blank_w3_visa = Some "F1"
  /\ visa row_blank_w3_visa = ""
  /\ visa row_blank_w3_visa <> Py.upper (Py.strip "F1")
  /\ _race_ethnicity_du row_blank_w3_visa = "White".
Proof. repeat split; try reflexivity. vm_compute. discriminate. Qed.

(** C1 (amended). The category follows the precedence chain over the
    resolved visa, ethnicity and race: a non-blank visa outside
    {PR, RF, AS} gives "International" whatever the ethnicity and race;
    otherwise an ethnicity equal to "hispanic or latino" up to case gives
    "Hispanic or Latino" whatever the race; otherwise the category is the
    race text when it is non-blank and "Unknown" when it is not. A missing
    or blank visa never takes the visa branch: the category is then
    "International" only when the race text itself is "International". *)
Theorem race_ethnicity_precedence (row : Merged) :
  (visa row <> "" -> visa row ∉ NON_INTL_VISA_TYPES ->
   _race_ethnicity_du row = "International")
  /\ (visa row = "" \/ visa row ∈ NON_INTL_VISA_TYPES ->
      (Py.lower (ethn row) = "hispanic or latino" ->
       _race_ethnicity_du row = "Hispanic or Latino")
      /\ (Py.lower (ethn row) <> "hispanic or latino" ->
          (race row <> "" -> _race_ethnicity_du row = race row)
          /\ (race row = "" -> _race_ethnicity_du row = "Unknown")))
  /\ (visa row = "" <->
      match visa_raw row with None => True | Some s => Py.strip s = "" end)
  /\ (visa row = "" -> _race_ethnicity_du row = "International" ->
      race row = "International").
Proof.
  assert (Hgate : visa row = "" \/ visa row ∈ NON_INTL_VISA_TYPES ->
                  truthy (visa row)
                  && negb (bool_decide (visa row ∈ NON_INTL_VISA_TYPES))
                  = false).
  { intros [->|Hin]; [done|]. rewrite (bool_decide_eq_true_2 _ Hin).
    apply andb_false_r. }
  unfold _race_ethnicity_du. split; [|split; [|split]].
  - intros Hne Hout. apply truthy_true in Hne. rewrite Hne.
    by rewrite (bool_decide_eq_false_2 _ Hout).
  - intros Hg. rewrite (Hgate Hg). split.
    + intros ->. done.
    + intros Hne. apply String.eqb_neq in Hne. rewrite Hne. split.
      * intros Hr. apply truthy_true in Hr. by rewrite Hr.
      * intros ->. done.
  - apply clean_upper_blank.
  - intros Hv. rewrite (Hgate (or_introl Hv)).
    destruct (String.eqb _ "hispanic or latino"); [discriminate|].
    destruct (truthy (race row)); [done | discriminate].
Qed.

Lemma race_ethnicity_precedence_witness :
  _race_ethnicity_du row_f1 = "International".
Proof.
  apply (race_ethnicity_precedence row_f1).
  - vm_compute. discriminate.
  - apply (bool_decide_unpack _). vm_compute. exact I.
Defined.

(** C1, as stated, fails on its clause that a missing visa never yields
    "International": no visa is recorded in either snapshot and the race
    text is "International", which is returned as it is. *)
Lemma missing_visa_yields_international :
  visa_desc_w3 row_race_international = None
  /\ visa_desc_end row_race_international = None
  /\ visa row_race_international = ""
  /\ _race_ethnicity_du row_race_international = "International".
Proof. repeat split; reflexivity. Qed.

(** ** Flags and resolved attributes *)

Lemma notna_true {A} (c : option A) : notna c = true <-> c <> None.
Proof. destruct c; simpl; split; congruence. Qed.

Lemma any_notna3 {A} (a b c : option A) :
  notna a || notna b || notna c = true <->
  a <> None \/ b <> None \/ c <> None.
Proof.
  rewrite !orb_true_iff, !notna_true. tauto.
Qed.

(** C5. The two enrollment flags hold exactly when one of the snapshot's
    major, degree and college is not missing; [persisted] is their
    conjunction; and [undeclared_to_declared] holds exactly when the row
    persisted, the upper-cased WK3 major (empty when missing) starts with
    "UN" and the EOT major, treated alike, does not. So the flag is false
    whenever [persisted] is, whatever the two majors are. *)
Theorem flags_spec (r : Merged) :
  (enrolled_w3 r = true <->
   majr_w3 r <> None \/ degr_w3 r <> None \/ college_w3 r <> None)
  /\ (enrolled_end r = true <->
      majr_end r <> None \/ degr_end r <> None \/ college_end r <> None)
  /\ persisted_w3_to_end r = enrolled_w3 r && enrolled_end r
  /\ (undeclared_to_declared r = true <->
      persisted_w3_to_end r = true
      /\ (exists t, Py.upper (fillna_empty (majr_w3 r)) = "UN" ++ t)
      /\ ~ (exists t, Py.upper (fillna_empty (majr_end r)) = "UN" ++ t))
  /\ (persisted_w3_to_end r = false -> undeclared_to_declared r = false).
Proof.
  split; [apply any_notna3|]. split; [apply any_notna3|].
  split; [reflexivity|]. split.
  - unfold undeclared_to_declared.
    rewrite !andb_true_iff, negb_true_iff, <- not_true_iff_false.
    rewrite !startswith_UN. tauto.
  - unfold undeclared_to_declared. by intros ->.
Qed.

Lemma flags_spec_witness :
  undeclared_to_declared
    (mkMerged "1001" "202410" missing_snapshot
       (major_college "BIOLOGY" "ARTS")) = false.
Proof.
  apply (flags_spec (mkMerged "1001" "202410" missing_snapshot
                       (major_college "BIOLOGY" "ARTS"))).
  reflexivity.
Defined.

(** The general half of C6: which snapshot each resolved attribute reads. *)
Lemma attributes_resolved (r : Merged) :
  (enrolled_end r = true ->
   program r = PROGRAM_end r /\ degree r = degr_end r
   /\ major r = majr_end r /\ resolved_college r = college_end r)
  /\ (enrolled_end r = false ->
      program r = PROGRAM_w3 r /\ degree r = degr_w3 r
      /\ major r = majr_w3 r /\ resolved_college r = college_w3 r)
  /\ (legal_sex_desc_end r <> None -> gender r = legal_sex_desc_end r)
  /\ (legal_sex_desc_end r = None -> gender r = legal_sex_desc_w3 r).
Proof.
  unfold program, degree, major, resolved_college, gender, np_where.
  split; [by intros ->|]. split; [by intros ->|].
  split; [|by intros ->].
  intros Hsex%notna_true. by rewrite Hsex.
Qed.

(** ** Sorting and de-duplicating *)

Lemma string_compare_refl (s : string) : String.compare s s = Eq.
Proof.
  pose proof (String.compare_antisym s s) as H.
  destruct (String.compare s s); simpl in H; congruence.
Qed.

Lemma key_leb_refl (k : Key) : key_leb k k = true.
Proof.
  unfold key_leb, key_compare. by rewrite !string_compare_refl.
Qed.

Section FrameFacts.

Context {A : Type} (key : A -> Key).

Lemma with_key_insert_row (k : Key) (x : A) (l : list A) :
  with_key key k (insert_row key x l) = with_key key k (x :: l).
Proof.
  induction l as [|y l IH]; [done|]. simpl.
  destruct (key_leb (key x) (key y)) eqn:Hle; [done|].
  assert (key y <> key x) as Hne.
  { intros Heq. rewrite Heq, key_leb_refl in Hle. discriminate. }
  rewrite (filter_cons _ y), IH, !filter_cons.
  repeat case_decide; congruence.
Qed.

(** The sort is stable: the rows of one key keep their order. *)
Lemma with_key_sort_values (k : Key) (l : list A) :
  with_key key k (sort_values key l) = with_key key k l.
Proof.
  induction l as [|x l IH]; [done|]. simpl.
  rewrite with_key_insert_row, !filter_cons, IH. done.
Qed.

Lemma with_key_drop_seen (k : Key) (seen : gset Key) (l : list A) :
  with_key key k (drop_seen key seen l)
  = if decide (k ∈ seen) then [] else first_row (with_key key k l).
Proof.
  revert seen. induction l as [|x l IH]; intros seen; simpl.
  { by case_decide. }
  destruct (bool_decide_reflect (key x ∈ seen)) as [Hin|Hout].
  - rewrite IH, filter_cons. repeat case_decide; congruence.
  - rewrite !filter_cons, IH.
    destruct (decide (key x = k)) as [Heq|Hne]; simpl.
    + rewrite decide_True by set_solver.
      rewrite decide_False by congruence. by rewrite take_0.
    + destruct (decide (k ∈ seen)) as [Hs|Hs].
      * rewrite decide_True by (apply elem_of_union; by right). done.
      * rewrite decide_False; [done|].
        rewrite elem_of_union, elem_of_singleton. by intros [?|?].
Qed.

(** Of the rows of one key, [drop_duplicates] keeps the first. *)
Lemma with_key_drop_duplicates (k : Key) (l : list A) :
  with_key key k (drop_duplicates key l) = first_row (with_key key k l).
Proof.
  unfold drop_duplicates. rewrite with_key_drop_seen.
  rewrite decide_False by set_solver. done.
Qed.

Lemma sort_values_Permutation (l : list A) : sort_values key l ≡ₚ l.
Proof.
  induction l as [|x l IH]; [done|]. simpl.
  rewrite <- IH at 2. generalize (sort_values key l). clear.
  intros l. induction l as [|y l IH]; [done|]. simpl.
  destruct (key_leb _ _); [done|]. rewrite IH. apply Permutation_swap.
Qed.

Lemma drop_seen_sublist (seen : gset Key) (l : list A) :
  drop_seen key seen l `sublist_of` l.
Proof.
  revert seen. induction l as [|x l IH]; intros seen; simpl; [done|].
  case_bool_decide; [apply sublist_cons | apply sublist_skip]; apply IH.
Qed.

(** At most one row for every key means no key twice. *)
Lemma NoDup_keys (l : list A) :
  (forall k, (length (with_key key k l) <= 1)%nat) -> NoDup (key <$> l).
Proof.
  induction l as [|x l IH]; intros Hk; simpl; [constructor|].
  constructor.
  - intros (y & Hy & Hin)%list_elem_of_fmap.
    specialize (Hk (key x)). rewrite filter_cons_True in Hk by done.
    assert (y ∈ with_key key (key x) l) as Hy'.
    { apply list_elem_of_filter. by split. }
    destruct (with_key key (key x) l); [by apply elem_of_nil in Hy'|].
    simpl in Hk. lia.
  - apply IH. intros k. specialize (Hk k).
    rewrite filter_cons in Hk. case_decide; simpl in Hk; lia.
Qed.

Lemma NoDup_keys_inv (l : list A) (k : Key) :
  NoDup (key <$> l) -> (length (with_key key k l) <= 1)%nat.
Proof.
  induction l as [|x l IH]; simpl; [intros _; lia|].
  intros [Hx Hl]%NoDup_cons. rewrite filter_cons.
  case_decide as Hk; [|by apply IH]. simpl.
  destruct (with_key key k l) as [|y ?] eqn:Hf; [simpl; lia|]. exfalso.
  assert (y ∈ with_key key k l) as [Hy Hin]%list_elem_of_filter
    by (rewrite Hf; left).
  apply Hx, list_elem_of_fmap. exists y. split; [congruence|done].
Qed.

Lemma NoDup_keys_drop_duplicates (l : list A) :
  NoDup (key <$> drop_duplicates key l).
Proof.
  apply NoDup_keys. intros k. rewrite with_key_drop_duplicates.
  rewrite length_take. lia.
Qed.

(** No row is flagged a duplicate exactly when no key occurs twice. *)
Lemma duplicated_none (l : list A) :
  existsb (fun b => b) (duplicated key l) = false ->
  forall k, (length (with_key key k l) <= 1)%nat.
Proof.
  intros Hnone k.
  destruct (with_key key k l) as [|x t] eqn:Hf; [simpl; lia|].
  assert (x ∈ with_key key k l) as [Hx Hin]%list_elem_of_filter
    by (rewrite Hf; left).
  destruct (decide (1 < length (with_key key k l))%nat) as [Hlt|Hge];
    [|rewrite Hf in Hge; lia].
  exfalso. apply not_true_iff_false in Hnone. apply Hnone.
  apply existsb_exists. exists true. split; [|done].
  apply list_elem_of_In, list_elem_of_fmap. exists x. split; [|done].
  symmetry. apply bool_decide_eq_true. by rewrite Hx.
Qed.

End FrameFacts.

Section KeyFacts.

Context {A : Type} (key : A -> Key).

Lemma with_key_nil_iff (k : Key) (l : list A) :
  with_key key k l = [] <-> k ∉ (key <$> l).
Proof.
  induction l as [|x l IH]; simpl.
  - split; [intros _; apply not_elem_of_nil | done].
  - rewrite filter_cons, not_elem_of_cons. case_decide as Hk.
    + split; [discriminate | intros [Hne _]; congruence].
    + rewrite IH. split; [by intros ?; split; [congruence|] | by intros [_ ?]].
Qed.

(** Rows that all have the key [k'], filtered on the key [k]. *)
Lemma with_key_all (k k' : Key) (l : list A) :
  Forall (fun x => key x = k') l ->
  with_key key k l = if decide (k' = k) then l else [].
Proof.
  induction 1 as [|x l Hx _ IH]; [by case_decide|].
  rewrite filter_cons, IH. subst k'. by case_decide.
Qed.

Lemma with_key_with_key (k : Key) (l : list A) :
  Forall (fun x => key x = k) (with_key key k l).
Proof.
  apply Forall_forall. by intros x [Hx _]%list_elem_of_filter.
Qed.

Lemma first_row_head (l : list A) : first_row l = option_list (head l).
Proof. destruct l; [done|]. simpl. by rewrite take_0. Qed.

End KeyFacts.

(** ** The census split and the outer merge *)

Lemma with_key_select_snapshot (k : Key) (l : list EnrollRow) :
  with_key s_key k (select_snapshot <$> l)
  = select_snapshot <$> with_key e_key k l.
Proof.
  induction l as [|r l IH]; [done|].
  rewrite fmap_cons, !filter_cons, IH.
  change (s_key (select_snapshot r)) with (e_key r). by case_decide.
Qed.

(** Of the rows of one key, a census frame holds the first one that has
    the frame's tag. *)
Lemma with_key_census_frame (tag : string) (k : Key)
      (df_final : list EnrollRow) :
  with_key s_key k (census_frame tag df_final)
  = option_list (select_snapshot <$> first_of tag k df_final).
Proof.
  unfold census_frame, first_of.
  rewrite with_key_select_snapshot, with_key_drop_duplicates.
  rewrite with_key_sort_values, list_filter_filter, first_row_head.
  by destruct (head _).
Qed.

Lemma NoDup_census_frame (tag : string) (df_final : list EnrollRow) :
  NoDup (s_key <$> census_frame tag df_final).
Proof.
  apply NoDup_keys. intros k. rewrite with_key_census_frame.
  destruct (first_of _ _ _); simpl; lia.
Qed.

Lemma elem_of_census_frame (tag : string) (df_final : list EnrollRow)
      (s : SnapRow) :
  s ∈ census_frame tag df_final ->
  exists r, r ∈ df_final /\ census r = Some tag /\ s = select_snapshot r.
Proof.
  unfold census_frame. intros (r & -> & Hr)%list_elem_of_fmap.
  exists r.
  eapply elem_of_sublist in Hr; [|apply drop_seen_sublist].
  rewrite sort_values_Permutation in Hr.
  by apply list_elem_of_filter in Hr as [? ?].
Qed.

Lemma join_left_keys (right : list SnapRow) (k : Key) (l : SnapRow) :
  Forall (fun m => m_key m = s_key l) (join_left right k l).
Proof.
  unfold join_left. destruct (with_key s_key k right) as [|r ms].
  - by repeat constructor.
  - apply Forall_fmap, Forall_forall. by intros.
Qed.

(** The rows of one key after the outer merge: the left rows of the key
    joined to the right rows of the key, the right rows alone when no left
    row has the key. *)
Lemma with_key_merge_outer (k : Key) (left right : list SnapRow) :
  with_key m_key k (merge_outer left right)
  = match with_key s_key k left with
    | [] => right_only <$> with_key s_key k right
    | ls => ls ≫= join_left right k
    end.
Proof.
  unfold merge_outer. rewrite with_key_sort_values, filter_app.
  assert (with_key m_key k (left ≫= fun l => join_left right (s_key l) l)
          = with_key s_key k left ≫= join_left right k) as ->.
  { induction left as [|l left IH]; [done|].
    rewrite bind_cons, filter_app, IH, filter_cons.
    rewrite (with_key_all m_key k (s_key l)) by apply join_left_keys.
    case_decide as Hk; [|done]. rewrite bind_cons. by rewrite Hk. }
  assert (with_key m_key k
            (right_only
               <$> filter (fun r => s_key r ∉ (s_key <$> left)) right)
          = if decide (k ∈ s_key <$> left) then []
            else right_only <$> with_key s_key k right) as ->.
  { induction right as [|r right IH]; [by case_decide|].
    rewrite (filter_cons _ r), (filter_cons _ r right).
    destruct (decide (s_key r ∉ s_key <$> left)) as [Hout|Hin].
    - rewrite fmap_cons, filter_cons, IH.
      change (m_key (right_only r)) with (s_key r).
      destruct (decide (s_key r = k)) as [<-|Hne].
      + rewrite !decide_False by done. reflexivity.
      + reflexivity.
    - rewrite IH. destruct (decide (s_key r = k)) as [<-|Hne]; [|done].
      rewrite !decide_True by (by apply dec_stable). done. }
  destruct (with_key s_key k left) as [|l ls] eqn:Hl.
  - apply with_key_nil_iff in Hl. by rewrite decide_False.
  - rewrite decide_True, app_nil_r; [done|].
    apply dec_stable. intros Hout%with_key_nil_iff. congruence.
Qed.

(** The rows of one key in [student_term]: one row, made of the first WK3
    row and the first EOT row that [df_final] has for the key. *)
Lemma with_key_student_term (k : Key) (df_final : list EnrollRow) :
  with_key m_key k (student_term df_final)
  = match first_of "WK3" k df_final, first_of "EOT" k df_final with
    | Some a, Some b => [both (select_snapshot a) (select_snapshot b)]
    | Some a, None => [left_only (select_snapshot a)]
    | None, Some b => [right_only (select_snapshot b)]
    | None, None => []
    end.
Proof.
  unfold student_term, w3, end_. rewrite with_key_merge_outer.
  unfold join_left. rewrite !with_key_census_frame.
  by destruct (first_of "WK3" k df_final), (first_of "EOT" k df_final).
Qed.

Lemma elem_of_keys_census_frame (tag : string) (k : Key)
      (df_final : list EnrollRow) :
  k ∈ (s_key <$> census_frame tag df_final)
  <-> is_Some (first_of tag k df_final).
Proof.
  pose proof (with_key_nil_iff s_key k (census_frame tag df_final)) as H.
  rewrite with_key_census_frame in H.
  destruct (first_of tag k df_final) as [a|]; simpl in H.
  - split; [by eexists|]. intros _. apply dec_stable. intros Hout.
    by apply H in Hout.
  - split; [|by intros [? ?]]. intros Hin. exfalso. by apply H.
Qed.

Lemma census_frame_tagged_only (tag : string) (df_final : list EnrollRow) :
  tag = "WK3" \/ tag = "EOT" ->
  census_frame tag
    (filter (fun r => census r = Some "WK3" \/ census r = Some "EOT") df_final)
  = census_frame tag df_final.
Proof.
  intros Htag. unfold census_frame. rewrite list_filter_filter.
  do 3 f_equal. apply list_filter_iff. intros r. split; [tauto|].
  intros Hr. split; [done|]. rewrite Hr. destruct Htag as [->| ->]; tauto.
Qed.

Lemma elem_of_student_term (df_final : list EnrollRow) (m : Merged) :
  m ∈ student_term df_final ->
  match first_of "WK3" (m_key m) df_final,
        first_of "EOT" (m_key m) df_final with
  | Some a, Some b => m = both (select_snapshot a) (select_snapshot b)
  | Some a, None => m = left_only (select_snapshot a)
  | None, Some b => m = right_only (select_snapshot b)
  | None, None => False
  end.
Proof.
  intros Hm.
  assert (m ∈ with_key m_key (m_key m) (student_term df_final)) as Hin.
  { apply list_elem_of_filter. by split. }
  rewrite with_key_student_term in Hin.
  destruct (first_of "WK3" _ _), (first_of "EOT" _ _);
    try (by apply list_elem_of_singleton in Hin).
  by apply elem_of_nil in Hin.
Qed.

(** C7. The split keeps exactly the rows tagged "WK3" and the rows tagged
    "EOT", so a row with another tag or none reaches neither frame and has
    no effect on the result; each frame has one row per key, the first one
    of that key and tag in row order (the sort is stable); and the outer
    merge has exactly one row for every key of either frame and no other
    row, with the columns of a snapshot all missing when the key is not in
    that snapshot's frame. *)
Theorem census_split_merge (df_final : list EnrollRow) :
  (forall s, s ∈ w3 df_final ->
     exists r, r ∈ df_final /\ census r = Some "WK3" /\ s = select_snapshot r)
  /\ (forall s, s ∈ end_ df_final ->
     exists r, r ∈ df_final /\ census r = Some "EOT" /\ s = select_snapshot r)
  /\ student_term
       (filter (fun r => census r = Some "WK3" \/ census r = Some "EOT")
          df_final)
     = student_term df_final
  /\ NoDup (s_key <$> w3 df_final)
  /\ NoDup (s_key <$> end_ df_final)
  /\ (forall k,
        with_key s_key k (w3 df_final)
        = option_list (select_snapshot <$> first_of "WK3" k df_final))
  /\ (forall k,
        with_key s_key k (end_ df_final)
        = option_list (select_snapshot <$> first_of "EOT" k df_final))
  /\ (forall k,
        k ∈ (s_key <$> w3 df_final) \/ k ∈ (s_key <$> end_ df_final) ->
        length (with_key m_key k (student_term df_final)) = 1%nat)
  /\ (forall m, m ∈ student_term df_final ->
        m_key m ∈ (s_key <$> w3 df_final)
        \/ m_key m ∈ (s_key <$> end_ df_final))
  /\ (forall m, m ∈ student_term df_final ->
        m_key m ∉ (s_key <$> end_ df_final) -> end_cols m = missing_snapshot)
  /\ (forall m, m ∈ student_term df_final ->
        m_key m ∉ (s_key <$> w3 df_final) -> w3_cols m = missing_snapshot)
  /\ (forall k,
        with_key m_key k (student_term df_final)
        = match first_of "WK3" k df_final, first_of "EOT" k df_final with
          | Some a, Some b => [both (select_snapshot a) (select_snapshot b)]
          | Some a, None => [left_only (select_snapshot a)]
          | None, Some b => [right_only (select_snapshot b)]
          | None, None => []
          end).
Proof.
  split; [apply elem_of_census_frame|].
  split; [apply elem_of_census_frame|].
  split.
  { unfold student_term, w3, end_.
    rewrite !census_frame_tagged_only by tauto. done. }
  split; [apply NoDup_census_frame|].
  split; [apply NoDup_census_frame|].
  split; [intros k; apply with_key_census_frame|].
  split; [intros k; apply with_key_census_frame|].
  split.
  { intros k Hk. rewrite with_key_student_term.
    unfold w3, end_ in Hk. rewrite !elem_of_keys_census_frame in Hk.
    destruct (first_of "WK3" k df_final), (first_of "EOT" k df_final);
      try done.
    destruct Hk as [[? ?]|[? ?]]; done. }
  split.
  { intros m Hm%elem_of_student_term. unfold w3, end_.
    rewrite !elem_of_keys_census_frame.
    destruct (first_of "WK3" _ _), (first_of "EOT" _ _); [| |
      |done]; eauto. }
  split.
  { intros m Hm%elem_of_student_term Hout. unfold end_ in Hout.
    rewrite elem_of_keys_census_frame in Hout.
    destruct (first_of "WK3" _ _), (first_of "EOT" _ _); try done;
      try (exfalso; apply Hout; by eexists).
    by subst m. }
  split.
  { intros m Hm%elem_of_student_term Hout. unfold w3 in Hout.
    rewrite elem_of_keys_census_frame in Hout.
    destruct (first_of "WK3" _ _), (first_of "EOT" _ _); try done;
      try (exfalso; apply Hout; by eexists).
    by subst m. }
  intros k. apply with_key_student_term.
Qed.

Lemma census_split_merge_witness :
  length (with_key m_key ("1002", "202410") (student_term df_example)) = 1%nat.
Proof.
  apply (census_split_merge df_example).
  left. apply (bool_decide_unpack _). vm_compute. exact I.
Defined.

(** One student-term with a WK3 row and an EOT row merges into one row. *)
Lemma student_term_pair (i t : string) (s1 s2 : Snapshot) :
  student_term [mkEnrollRow i t (Some "WK3") s1;
                mkEnrollRow i t (Some "EOT") s2]
  = [mkMerged i t s1 s2].
Proof.
  assert (Hw3 : w3 [mkEnrollRow i t (Some "WK3") s1;
                    mkEnrollRow i t (Some "EOT") s2]
                = [mkSnapRow i t s1]).
  { unfold w3, census_frame.
    rewrite filter_cons_True by done. rewrite filter_cons_False by done.
    simpl. unfold drop_duplicates. simpl.
    rewrite bool_decide_eq_false_2 by set_solver. done. }
  assert (Hend : end_ [mkEnrollRow i t (Some "WK3") s1;
                       mkEnrollRow i t (Some "EOT") s2]
                 = [mkSnapRow i t s2]).
  { unfold end_, census_frame.
    rewrite filter_cons_False by done. rewrite filter_cons_True by done.
    simpl. unfold drop_duplicates. simpl.
    rewrite bool_decide_eq_false_2 by set_solver. done. }
  unfold student_term, merge_outer. rewrite Hw3, Hend.
  rewrite filter_cons_False by (simpl; set_solver).
  simpl. unfold join_left. rewrite filter_cons_True by done. done.
Qed.

(** C6. The resolved program, degree, major and college are the EOT
    values when [enrolled_end] holds and the WK3 values otherwise; the
    resolved gender is the EOT legal sex when it is present and the WK3
    one otherwise. A student with the WK3 major "UNDECIDED" and the EOT
    major "BIOLOGY", both in the college "ARTS", gets one merged row, which
    persisted, declared late, and has the major "BIOLOGY" and the college
    "ARTS". *)
Theorem attribute_resolution :
  (forall r : Merged,
     (enrolled_end r = true ->
      program r = PROGRAM_end r /\ degree r = degr_end r
      /\ major r = majr_end r /\ resolved_college r = college_end r)
     /\ (enrolled_end r = false ->
         program r = PROGRAM_w3 r /\ degree r = degr_w3 r
         /\ major r = majr_w3 r /\ resolved_college r = college_w3 r)
     /\ (legal_sex_desc_end r <> None -> gender r = legal_sex_desc_end r)
     /\ (legal_sex_desc_end r = None -> gender r = legal_sex_desc_w3 r))
  /\ (forall (i t : string) (s1 s2 : Snapshot),
        majr s1 = Some "UNDECIDED" -> college s1 = Some "ARTS" ->
        majr s2 = Some "BIOLOGY" -> college s2 = Some "ARTS" ->
        exists m,
          student_term [mkEnrollRow i t (Some "WK3") s1;
                        mkEnrollRow i t (Some "EOT") s2] = [m]
          /\ persisted_w3_to_end m = true
          /\ undeclared_to_declared m = true
          /\ major m = Some "BIOLOGY"
          /\ resolved_college m = Some "ARTS").
Proof.
  split; [apply attributes_resolved|].
  intros i t s1 s2 Hm1 Hc1 Hm2 Hc2. exists (mkMerged i t s1 s2).
  split; [apply student_term_pair|].
  unfold undeclared_to_declared, persisted_w3_to_end, major,
    resolved_college, enrolled_w3, enrolled_end, np_where,
    majr_w3, majr_end, degr_w3, degr_end, college_w3, college_end.
  simpl. rewrite Hm1, Hm2, Hc1, Hc2. done.
Qed.

Lemma attribute_resolution_witness :
  exists m,
    student_term [mkEnrollRow "1001" "202410" (Some "WK3")
                    (major_college "UNDECIDED" "ARTS");
                  mkEnrollRow "1001" "202410" (Some "EOT")
                    (major_college "BIOLOGY" "ARTS")] = [m]
    /\ persisted_w3_to_end m = true
    /\ undeclared_to_declared m = true
    /\ major m = Some "BIOLOGY"
    /\ resolved_college m = Some "ARTS".
Proof.
  destruct attribute_resolution as [_ Hscenario].
  apply Hscenario; reflexivity.
Defined.

(** ** The student-level table *)

(** C9. The exported table has at most one row per (id, term_code): of
    the rows of one key exactly the first, in row order, survives, the
    surviving rows keep their order, and every later row of a key that
    occurred before is dropped. *)
Theorem ensure_one_row_spec (student_level : list StudentLevel) :
  NoDup (sl_key <$> ensure_one_row student_level)
  /\ (forall k,
        with_key sl_key k (ensure_one_row student_level)
        = first_row (with_key sl_key k student_level))
  /\ ensure_one_row student_level `sublist_of` student_level
  /\ (forall (pre mid post : list StudentLevel) (r1 r2 : StudentLevel),
        student_level = (pre ++ r1 :: mid ++ r2 :: post)%list ->
        sl_key r1 = sl_key r2 ->
        sl_key r1 ∉ (sl_key <$> pre) ->
        with_key sl_key (sl_key r1) (ensure_one_row student_level) = [r1]).
Proof.
  assert (Hfirst : forall k,
             with_key sl_key k (ensure_one_row student_level)
             = first_row (with_key sl_key k student_level)).
  { intros k. unfold ensure_one_row.
    destruct (existsb _ _) eqn:Hdup.
    - apply with_key_drop_duplicates.
    - pose proof (duplicated_none sl_key _ Hdup k) as Hle.
      destruct (with_key sl_key k student_level) as [|x [|y t]];
        simpl in *; [done | done | lia]. }
  split; [|split; [done|split]].
  - apply NoDup_keys. intros k. rewrite Hfirst, length_take. lia.
  - unfold ensure_one_row. destruct (existsb _ _); [|done].
    apply drop_seen_sublist.
  - intros pre mid post r1 r2 -> Hkey Hpre. rewrite Hfirst.
    rewrite filter_app, filter_cons_True by done.
    assert (with_key sl_key (sl_key r1) pre = []) as ->; [|done].
    destruct (with_key sl_key (sl_key r1) pre) as [|y t] eqn:Hf; [done|].
    assert (y ∈ with_key sl_key (sl_key r1) pre)
      as [Hy Hin]%list_elem_of_filter by (rewrite Hf; left).
    exfalso. apply Hpre, list_elem_of_fmap. by exists y.
Qed.

Lemma ensure_one_row_spec_witness :
  with_key sl_key (sl_key sl_first) (ensure_one_row [sl_first; sl_second])
  = [sl_first].
Proof.
  apply (ensure_one_row_spec [sl_first; sl_second])
    with (pre := []) (mid := []) (r2 := sl_second) (post := []).
  - reflexivity.
  - reflexivity.
  - simpl. apply not_elem_of_nil.
Defined.

(** ** Term GPA *)

Lemma groupby_lookup {A : Type} (key : A -> Key) (rows : list A) (k : Key) :
  groupby key rows !! k
  = match with_key key k rows with [] => None | g => Some g end.
Proof.
  induction rows as [|r rows IH]; [done|]. simpl.
  rewrite filter_cons. destruct (decide (key r = k)) as [<-|Hne].
  - rewrite lookup_insert_eq, IH.
    by destruct (with_key key (key r) rows).
  - by rewrite lookup_insert_ne.
Qed.

Lemma omap_cons {A B : Type} (f : A -> option B) (x : A) (l : list A) :
  omap f (x :: l)
  = match f x with Some y => y :: omap f l | None => omap f l end.
Proof. reflexivity. Qed.

Lemma to_gpa_row_Some (r : GradeRow) (p : Q) :
  GRADE_POINTS !! letter_grade r = Some p ->
  to_gpa_row r = Some (mkGpaRow (g_id r) (g_term_code r) (letter_grade r) p).
Proof. unfold to_gpa_row. by intros ->. Qed.

Lemma to_gpa_row_None (r : GradeRow) :
  GRADE_POINTS !! letter_grade r = None -> to_gpa_row r = None.
Proof. unfold to_gpa_row. by intros ->. Qed.

Lemma with_key_grades_gpa (k : Key) (grades : list GradeRow) :
  with_key p_key k (grades_gpa grades)
  = grades_gpa (with_key g_key k grades).
Proof.
  unfold grades_gpa.
  induction grades as [|r grades IH]; [done|].
  rewrite (filter_cons _ r grades), omap_cons.
  destruct (GRADE_POINTS !! letter_grade r) as [p|] eqn:Hp.
  - rewrite (to_gpa_row_Some r p Hp), filter_cons.
    change (p_key (mkGpaRow _ _ _ _)) with (g_key r).
    case_decide; [|done].
    by rewrite omap_cons, (to_gpa_row_Some r p Hp), IH.
  - rewrite (to_gpa_row_None r Hp).
    case_decide; [|done]. by rewrite omap_cons, (to_gpa_row_None r Hp).
Qed.

Lemma grade_points_grades_gpa (grades : list GradeRow) :
  grade_points <$> grades_gpa grades = points_of grades.
Proof.
  unfold grades_gpa, points_of.
  induction grades as [|r grades IH]; [done|]. rewrite !omap_cons.
  destruct (GRADE_POINTS !! letter_grade r) as [p|] eqn:Hp.
  - by rewrite (to_gpa_row_Some r p Hp), fmap_cons, IH.
  - by rewrite (to_gpa_row_None r Hp).
Qed.

Lemma points_of_contributing (k : Key) (grades : list GradeRow) :
  points_of (contributing k grades) = points_of (with_key g_key k grades).
Proof.
  unfold points_of, contributing.
  induction grades as [|r grades IH]; [done|].
  rewrite !filter_cons.
  destruct (decide (g_key r = k /\ contributes r)) as [[Hk [p Hp]]|Hn].
  - rewrite decide_True by done. by rewrite !omap_cons, Hp, IH.
  - case_decide as Hk; [|done]. rewrite omap_cons.
    destruct (GRADE_POINTS !! letter_grade r) as [p|] eqn:Hp; [|done].
    exfalso. apply Hn. split; [done|]. unfold contributes. by rewrite Hp.
Qed.

Lemma length_points_of_contributing (k : Key) (grades : list GradeRow) :
  length (points_of (contributing k grades)) = length (contributing k grades).
Proof.
  unfold points_of, contributing.
  induction grades as [|r grades IH]; [done|].
  rewrite filter_cons. case_decide as Hr; [|done].
  destruct Hr as [_ [p Hp]]. rewrite omap_cons, Hp. simpl. by rewrite IH.
Qed.

(** The row of [term_gpa] for a key, from the contributing rows. *)
Lemma term_gpa_lookup (grades : list GradeRow) (k : Key) :
  term_gpa grades !! k
  = match contributing k grades with
    | [] => None
    | rows => Some (mkTermGpa (mean (points_of rows)) (length rows))
    end.
Proof.
  unfold term_gpa. rewrite lookup_fmap, groupby_lookup, with_key_grades_gpa.
  pose proof (grade_points_grades_gpa (with_key g_key k grades)) as Hpts.
  rewrite <- points_of_contributing in Hpts.
  pose proof (length_points_of_contributing k grades) as Hlen.
  rewrite <- Hpts, length_fmap in Hlen.
  destruct (grades_gpa (with_key g_key k grades)) as [|g gs];
    destruct (contributing k grades) as [|r rs]; try done.
  rewrite <- Hpts, <- Hlen. reflexivity.
Qed.

Lemma term_gpa_lookup_Some (grades : list GradeRow) (k : Key) :
  contributing k grades <> [] ->
  term_gpa grades !! k
  = Some (mkTermGpa (mean (points_of (contributing k grades)))
                    (length (contributing k grades))).
Proof.
  intros Hk. rewrite term_gpa_lookup. by destruct (contributing k grades).
Qed.

Lemma GRADE_POINTS_items (g : string) (p : Q) :
  GRADE_POINTS !! g = Some p <-> (g, p) ∈ grade_points_items.
Proof.
  unfold GRADE_POINTS. symmetry. apply elem_of_list_to_map.
  apply (bool_decide_unpack _). vm_compute. exact I.
Qed.

Lemma omap_filter_is_Some {A B : Type} (f : A -> option B) (l : list A) :
  omap f (filter (fun x => is_Some (f x)) l) = omap f l.
Proof.
  induction l as [|x l IH]; [done|].
  rewrite filter_cons, (omap_cons f x l).
  destruct (f x) as [y|] eqn:Hx.
  - rewrite decide_True by (by eexists). by rewrite omap_cons, Hx, IH.
  - rewrite decide_False by (by intros [? ?]). done.
Qed.

(** C3. The letter grade of a row is its grade as text, trimmed, which is
    what the GPA frame holds. A row reaches the GPA frame exactly when
    this grade is a key of the grade-points dictionary; for a key with a
    contributing row, [term_gpa] holds the mean of the contributing rows'
    points and their number; a key without a contributing row has no row
    in [term_gpa]. *)
Theorem term_gpa_spec (grades : list GradeRow) :
  (forall g p, GRADE_POINTS !! g = Some p <->
     (g, p) ∈ [("A", 4.0%Q); ("A-", 3.7%Q); ("B+", 3.3%Q); ("B", 3.0%Q);
               ("B-", 2.7%Q); ("C+", 2.3%Q); ("C", 2.0%Q); ("C-", 1.7%Q);
               ("D+", 1.3%Q); ("D", 1.0%Q); ("F", 0.0%Q)])
  /\ p_key <$> grades_gpa grades = g_key <$> filter contributes grades
  /\ grade_points <$> grades_gpa grades
     = points_of (filter contributes grades)
  /\ (forall k, contributing k grades <> [] ->
        term_gpa grades !! k
        = Some (mkTermGpa (mean (points_of (contributing k grades)))
                          (length (contributing k grades))))
  /\ (forall k, contributing k grades = [] -> term_gpa grades !! k = None).
Proof.
  split; [apply GRADE_POINTS_items|]. split; [|split; [|split]].
  - unfold grades_gpa. induction grades as [|r grades IH]; [done|].
    rewrite omap_cons, filter_cons.
    destruct (decide (contributes r)) as [[p Hp]|Hn].
    + by rewrite (to_gpa_row_Some r p Hp), !fmap_cons, IH.
    + destruct (GRADE_POINTS !! letter_grade r) as [p|] eqn:Hp.
      * exfalso. apply Hn. unfold contributes. by rewrite Hp.
      * by rewrite (to_gpa_row_None r Hp).
  - rewrite grade_points_grades_gpa. symmetry.
    apply (omap_filter_is_Some (fun r => GRADE_POINTS !! letter_grade r)).
  - intros k Hk. by apply term_gpa_lookup_Some.
  - intros k Hk. by rewrite term_gpa_lookup, Hk.
Qed.

Lemma term_gpa_spec_witness :
  term_gpa grades_example !! ("1001", "202410")
  = Some (mkTermGpa
            (mean (points_of (contributing ("1001", "202410") grades_example)))
            (length (contributing ("1001", "202410") grades_example))).
Proof.
  apply (term_gpa_spec grades_example). vm_compute. discriminate.
Defined.

Lemma points_of_app (l1 l2 : list GradeRow) :
  points_of (l1 ++ l2) = (points_of l1 ++ points_of l2)%list.
Proof.
  unfold points_of. induction l1 as [|r l1 IH]; [done|].
  rewrite <- app_comm_cons, !omap_cons, IH.
  by destruct (GRADE_POINTS !! letter_grade r).
Qed.

(** C10. The grade is turned into text and trimmed before the lookup, so
    a row whose trimmed grade is a key of the dictionary adds its points
    to the mean of its student-term and one to the course count, whatever
    whitespace surrounds the grade; " A " counts as "A" and "B+ " as "B+". *)
Theorem trimmed_grade_contributes :
  (forall (pre post : list GradeRow) (r : GradeRow) (p : Q),
     GRADE_POINTS !! Py.strip (py_str (final_course_grade r)) = Some p ->
     term_gpa (pre ++ r :: post) !! g_key r
     = Some (mkTermGpa
               (mean (points_of (contributing (g_key r) pre)
                      ++ p :: points_of (contributing (g_key r) post)))
               (S (length (contributing (g_key r) pre)
                   + length (contributing (g_key r) post)))))
  /\ (forall i t : string,
        term_gpa [mkGradeRow i t (Some " A ")] !! (i, t)
        = Some (mkTermGpa (mean [4.0%Q]) 1))
  /\ (forall i t : string,
        term_gpa [mkGradeRow i t (Some "B+ ")] !! (i, t)
        = Some (mkTermGpa (mean [3.3%Q]) 1)).
Proof.
  assert (Hgen : forall (pre post : list GradeRow) (r : GradeRow) (p : Q),
     GRADE_POINTS !! Py.strip (py_str (final_course_grade r)) = Some p ->
     term_gpa (pre ++ r :: post) !! g_key r
     = Some (mkTermGpa
               (mean (points_of (contributing (g_key r) pre)
                      ++ p :: points_of (contributing (g_key r) post)))
               (S (length (contributing (g_key r) pre)
                   + length (contributing (g_key r) post))))).
  { intros pre post r p Hp.
    assert (contributing (g_key r) (pre ++ r :: post)
            = (contributing (g_key r) pre
               ++ r :: contributing (g_key r) post)%list) as Hsplit.
    { unfold contributing. rewrite filter_app, filter_cons_True; [done|].
      split; [done|]. by exists p. }
    rewrite term_gpa_lookup_Some
      by (rewrite Hsplit; by destruct (contributing (g_key r) pre)).
    rewrite Hsplit, points_of_app, length_app. simpl.
    unfold letter_grade. by rewrite Hp, Nat.add_succ_r. }
  split; [exact Hgen|]. split.
  - intros i t.
    apply (Hgen [] [] (mkGradeRow i t (Some " A ")) 4.0%Q). reflexivity.
  - intros i t.
    apply (Hgen [] [] (mkGradeRow i t (Some "B+ ")) 3.3%Q). reflexivity.
Qed.

Lemma trimmed_grade_contributes_witness :
  term_gpa grades_example !! ("1001", "202410")
  = Some (mkTermGpa (mean [4.0%Q; 3.3%Q]) 2).
Proof.
  destruct trimmed_grade_contributes as [Hgen _].
  apply (Hgen [mkGradeRow "1001" "202410" (Some " A ");
               mkGradeRow "1001" "202410" (Some "W")]
              [mkGradeRow "1001" "202410" None]
              (mkGradeRow "1001" "202410" (Some "B+ ")) 3.3%Q).
  reflexivity.
Defined.

(** ** Age *)

Lemma digit_char_facts (c : ascii) :
  Py.isdigit_char c = true ->
  Py.int_isspace c = false /\ Ascii.eqb c "-" = false
  /\ Ascii.eqb c "+" = false /\ Ascii.eqb c "_" = false
  /\ (Py.isdecimal_char c = true ->
      0 <= Z.of_nat (nat_of_ascii c) - 48 <= 9).
Proof.
  destruct c as [[] [] [] [] [] [] [] []]; vm_compute; intros Hd;
    try discriminate Hd; repeat split; discriminate.
Qed.

Lemma int_rstrip_digits (s : string) :
  Py.all_digits s = true -> Py.int_rstrip s = s.
Proof.
  induction s as [|c r IH]; [done|]. simpl.
  intros [Hc Hr]%andb_prop. rewrite (IH Hr).
  destruct r; [|done]. by destruct (digit_char_facts c Hc) as [-> _].
Qed.

Lemma int_strip_digits (s : string) :
  Py.isdigit s = true -> Py.int_rstrip (Py.int_lstrip s) = s.
Proof.
  destruct s as [|c r]; [done|]. intros Hd.
  assert (Py.int_lstrip (String c r) = String c r) as ->.
  { simpl in *. apply andb_prop in Hd as [Hc _].
    by destruct (digit_char_facts c Hc) as [-> _]. }
  by apply int_rstrip_digits.
Qed.

(** On a text of digits the literal reads, if it does, as a number below
    ten to the length of the text. *)
Lemma int_digits_bound (s : string) (acc v : Z) (prev : bool) :
  Py.all_digits s = true -> Py.int_digits acc prev s = Some v -> 0 <= acc ->
  acc * 10 ^ Z.of_nat (String.length s) <= v
  < (acc + 1) * 10 ^ Z.of_nat (String.length s).
Proof.
  revert acc prev. induction s as [|c r IH]; intros acc prev Hd Hv Hacc.
  - simpl in Hv. destruct prev; [|done]. injection Hv as <-. simpl. lia.
  - simpl in Hd. apply andb_prop in Hd as [Hc Hr].
    destruct (digit_char_facts c Hc) as (_ & _ & _ & Hus & Hrange).
    simpl Py.int_digits in Hv.
    destruct (Py.isdecimal_char c) eqn:Hdec;
      [|by rewrite Hus in Hv].
    specialize (Hrange eq_refl).
    apply IH in Hv as [Hlo Hhi]; [|done|lia].
    change (String.length (String c r)) with (S (String.length r)).
    rewrite Nat2Z.inj_succ, Z.pow_succ_r by lia.
    assert (0 < 10 ^ Z.of_nat (String.length r))
      by (apply Z.pow_pos_nonneg; lia).
    nia.
Qed.

Lemma int_digits_text (s : string) (y : Z) :
  Py.isdigit s = true -> Py.int s = Some y ->
  0 <= y < 10 ^ Z.of_nat (String.length s).
Proof.
  intros Hd. unfold Py.int. rewrite (int_strip_digits s Hd).
  destruct s as [|c r]; [done|].
  pose proof Hd as Hd'. simpl in Hd'. apply andb_prop in Hd' as [Hc _].
  destruct (digit_char_facts c Hc) as (_ & -> & -> & _).
  intros Hy. apply int_digits_bound in Hy; [lia | done | lia].
Qed.

Lemma length_first_chars (n : nat) (s : string) :
  (String.length (Py.first_chars n s) <= n)%nat.
Proof.
  unfold Py.first_chars. revert s.
  induction n as [|n IH]; intros [|c r]; simpl; try lia.
  specialize (IH r). lia.
Qed.

(** When the four leading digits of a term code read as an integer, it
    is a year from 0 to 9999. *)
Lemma year_of_term (term_code : string) (y : Z) :
  Py.isdigit (Py.first_chars 4 term_code) = true ->
  Py.int (Py.first_chars 4 term_code) = Some y -> 0 <= y <= 9999.
Proof.
  intros Hd Hy. destruct (int_digits_text _ y Hd Hy) as [Hlo Hhi].
  pose proof (length_first_chars 4 term_code) as Hlen.
  assert (10 ^ Z.of_nat (String.length (Py.first_chars 4 term_code))
          <= 10 ^ 4) by (apply Z.pow_le_mono_r; lia).
  lia.
Qed.

Lemma asof_month_lookup (suff : Z) :
  default 10 (_TERM_ASOF_MONTH !! suff) = asof_month_spec suff.
Proof.
  unfold _TERM_ASOF_MONTH, asof_month_spec. simpl.
  repeat (rewrite lookup_insert; case_decide as Hk;
          [subst suff; reflexivity
          | apply not_eq_sym, Z.eqb_neq in Hk; rewrite Hk; clear Hk]).
  by rewrite lookup_empty.
Qed.

Lemma asof_month_spec_cases (suff : Z) :
  asof_month_spec suff = 3 \/ asof_month_spec suff = 7
  \/ asof_month_spec suff = 10.
Proof.
  unfold asof_month_spec.
  repeat (destruct (_ =? _); [tauto|]). tauto.
Qed.

Lemma pair_ltb_spec (a b : Z * Z) :
  pair_ltb a b = bool_decide (a.1 < b.1 \/ (a.1 = b.1 /\ a.2 < b.2)).
Proof.
  unfold pair_ltb. symmetry.
  destruct (Z.ltb_spec a.1 b.1) as [Hlt|Hge]; simpl.
  - apply bool_decide_eq_true. by left.
  - destruct (Z.eqb_spec a.1 b.1) as [Heq|Hne]; simpl.
    + destruct (Z.ltb_spec a.2 b.2) as [Hlt|Hge'].
      * apply bool_decide_eq_true. by right.
      * apply bool_decide_eq_false. lia.
    + apply bool_decide_eq_false. lia.
Qed.

Lemma Timestamp_new_first_day (y m : Z) :
  1 <= y <= 9999 -> m = 3 \/ m = 7 \/ m = 10 ->
  Timestamp_new y m 1 = Ok (mkTimestamp y m 1).
Proof.
  intros Hy Hm. unfold Timestamp_new, MINYEAR, MAXYEAR.
  assert ((1 <=? y) = true) as -> by (apply Z.leb_le; lia).
  assert ((y <=? 9999) = true) as -> by (apply Z.leb_le; lia).
  by destruct Hm as [->|[->| ->]].
Qed.

(** The as-of date of a term code with a year of at least 1 and an
    integer suffix. *)
Lemma asof_from_term_date (term_code : string) (y suff : Z) :
  (6 <= String.length term_code)%nat ->
  Py.isdigit (Py.first_chars 4 term_code) = true ->
  Py.int (Py.first_chars 4 term_code) = Some y -> 1 <= y ->
  Py.int (Py.last_chars 2 term_code) = Some suff ->
  _asof_from_term term_code
  = Ok (Some (mkTimestamp y (asof_month_spec suff) 1)).
Proof.
  intros Hlen Hd Hy Hy1 Hsuff. unfold _asof_from_term.
  pose proof (year_of_term term_code y Hd Hy) as Hrange.
  apply Nat.leb_le in Hlen. rewrite Hlen, Hd, Hy, Hsuff.
  cbn -[_TERM_ASOF_MONTH Timestamp_new].
  rewrite asof_month_lookup, Timestamp_new_first_day;
    [done | lia | apply asof_month_spec_cases].
Qed.

(** A term code that is too short or does not start with four digits has
    no as-of date, and neither has one whose four digits read as an
    integer and whose two last characters do not; nothing is raised. *)
Lemma asof_from_term_unparseable (term_code : string) :
  (String.length term_code < 6)%nat
  \/ Py.isdigit (Py.first_chars 4 term_code) = false
  \/ (is_Some (Py.int (Py.first_chars 4 term_code))
      /\ Py.int (Py.last_chars 2 term_code) = None) ->
  _asof_from_term term_code = Ok None.
Proof.
  unfold _asof_from_term. intros [Hlen|[Hd|[[y Hy] Hsuff]]].
  - apply Nat.leb_gt in Hlen. by rewrite Hlen.
  - rewrite Hd. by rewrite andb_false_r.
  - destruct (_ && _); [|done]. by rewrite Hy, Hsuff.
Qed.

(** The as-of date raises exactly when the term code has six characters
    or more and four leading digits that either do not read as an
    integer, or read as the year 0 before a suffix that is an integer. *)
Lemma asof_from_term_raises (term_code : string) (e : exn) :
  _asof_from_term term_code = Raise e <->
  (6 <= String.length term_code)%nat
  /\ Py.isdigit (Py.first_chars 4 term_code) = true
  /\ (Py.int (Py.first_chars 4 term_code) = None
      \/ (Py.int (Py.first_chars 4 term_code) = Some 0
          /\ is_Some (Py.int (Py.last_chars 2 term_code)))).
Proof.
  destruct e. split.
  - unfold _asof_from_term.
    destruct (6 <=? String.length term_code)%nat eqn:Hlen; [|done].
    destruct (Py.isdigit (Py.first_chars 4 term_code)) eqn:Hd; [|done].
    cbn -[_TERM_ASOF_MONTH Timestamp_new]. apply Nat.leb_le in Hlen.
    destruct (Py.int (Py.first_chars 4 term_code)) as [y|] eqn:Hy;
      [|by auto].
    pose proof (year_of_term term_code y Hd Hy) as Hrange.
    destruct (Py.int (Py.last_chars 2 term_code)) as [suff|] eqn:Hs; [|done].
    destruct (decide (y = 0)) as [->|Hy0].
    + intros _. split; [done|]. split; [done|]. right. by eauto.
    + rewrite asof_month_lookup, Timestamp_new_first_day;
        [done | lia | apply asof_month_spec_cases].
  - intros (Hlen & Hd & Hyear). unfold _asof_from_term.
    apply Nat.leb_le in Hlen. rewrite Hlen, Hd.
    cbn -[_TERM_ASOF_MONTH Timestamp_new].
    destruct Hyear as [->|[-> [suff ->]]]; [done|].
    cbn -[_TERM_ASOF_MONTH Timestamp_new]. rewrite asof_month_lookup.
    by destruct (asof_month_spec_cases suff) as [->|[->| ->]].
Qed.

(** When nothing is raised, an unparseable birth date or term code gives
    a missing age. *)
Lemma age_missing_when_unparseable (parse : string -> option Timestamp)
      (dob_w3 dob_end : cell) (term_code : string)
      (asof : option Timestamp) :
  _asof_from_term term_code = Ok asof ->
  to_datetime parse (prefer_w3 dob_w3 dob_end) = None \/ asof = None ->
  _age_years parse dob_w3 dob_end term_code = Ok None.
Proof.
  intros Hasof Hnone. unfold _age_years. rewrite Hasof. simpl.
  destruct Hnone as [->| ->]; [done|].
  by destruct (to_datetime _ _).
Qed.

(** C4 (amended). For a row whose resolved date of birth parses and whose
    term code has at least six characters, four leading digits that read
    as a year of at least 1, and two last characters that read as an
    integer, the age is the as-of year minus the birth year, minus one
    when the as-of (month, day) comes before the birth (month, day); the
    as-of date is day 1 of the month the suffix maps to (October when the
    suffix is not in the table) in the year of the leading digits. For a
    term code of at least six characters whose four leading digits read
    as an integer and whose two last characters do not, the age is
    missing. Birth date 2000-06-15 gives 22 for "202210" and 21 for
    "202220". *)
Theorem age_years_spec (parse : string -> option Timestamp) :
  (forall (dob_w3 dob_end : cell) (term_code : string)
          (dt : Timestamp) (y suff : Z),
     to_datetime parse (prefer_w3 dob_w3 dob_end) = Some dt ->
     (6 <= String.length term_code)%nat ->
     Py.isdigit (Py.first_chars 4 term_code) = true ->
     Py.int (Py.first_chars 4 term_code) = Some y -> 1 <= y ->
     Py.int (Py.last_chars 2 term_code) = Some suff ->
     _age_years parse dob_w3 dob_end term_code
     = Ok (Some (age_at y (asof_month_spec suff) 1 dt)))
  /\ (forall (dob_w3 dob_end : cell) (term_code : string) (y : Z),
        (6 <= String.length term_code)%nat ->
        Py.isdigit (Py.first_chars 4 term_code) = true ->
        Py.int (Py.first_chars 4 term_code) = Some y ->
        Py.int (Py.last_chars 2 term_code) = None ->
        _age_years parse dob_w3 dob_end term_code = Ok None)
  /\ (forall dob_w3 dob_end : cell,
        prefer_w3 dob_w3 dob_end = Some "2000-06-15" ->
        parse "2000-06-15" = Some (mkTimestamp 2000 6 15) ->
        _age_years parse dob_w3 dob_end "202210" = Ok (Some 22)
        /\ _age_years parse dob_w3 dob_end "202220" = Ok (Some 21)).
Proof.
  split; [|split].
  - intros dob_w3 dob_end term_code dt y suff Hdt Hlen Hd Hy Hy1 Hsuff.
    unfold _age_years.
    rewrite (asof_from_term_date term_code y suff Hlen Hd Hy Hy1 Hsuff), Hdt.
    simpl. rewrite pair_ltb_spec. unfold age_at. simpl.
    case_bool_decide; [done|]. by rewrite Z.sub_0_r.
  - intros dob_w3 dob_end term_code y Hlen Hd Hy Hsuff.
    apply (age_missing_when_unparseable parse _ _ _ None); [|by right].
    apply asof_from_term_unparseable. right. right. split; [by exists y|done].
  - intros dob_w3 dob_end Hdob Hparse. unfold _age_years.
    rewrite Hdob. simpl. rewrite Hparse. split; reflexivity.
Qed.

Lemma age_years_spec_witness :
  _age_years iso_date (Some "2000-06-15") None "202210" = Ok (Some 22)
  /\ _age_years iso_date None (Some "2000-06-15") "202220" = Ok (Some 21)
  /\ _age_years iso_date (Some "2000-06-15") None "202299"
     = Ok (Some (age_at 2022 (asof_month_spec 99) 1 (mkTimestamp 2000 6 15)))
  /\ _age_years iso_date (Some "2000-06-15") None term_code_fs = Ok None.
Proof.
  destruct (age_years_spec iso_date) as (Hgen & Hsuffix & Hex).
  split; [|split; [|split]].
  - apply (Hex (Some "2000-06-15") None); reflexivity.
  - apply (Hex None (Some "2000-06-15")); reflexivity.
  - apply (Hgen (Some "2000-06-15") None "202299"); try reflexivity.
    lia.
  - apply (Hsuffix (Some "2000-06-15") None term_code_fs 2022);
      reflexivity.
Defined.

(** C4, as stated, fails for a suffix that is not an integer: the birth
    date parses and the term code has six characters and four leading
    digits, but the as-of date is missing and so is the age. *)
Lemma age_missing_for_non_integer_suffix :
  to_datetime iso_date (prefer_w3 (Some "2000-06-15") None)
  = Some (mkTimestamp 2000 6 15)
  /\ (6 <= String.length "2022AB")%nat
  /\ Py.isdigit (Py.first_chars 4 "2022AB") = true
  /\ _age_years iso_date (Some "2000-06-15") None "2022AB" = Ok None.
Proof.
  split; [reflexivity|]. split; [apply Nat.leb_le; reflexivity|].
  split; reflexivity.
Qed.

(** C8 fails on the code: for the term code "000010" the year is 0, the
    [Timestamp] constructor raises [ValueError], and the age derivation
    raises with it, whatever the birth dates are and whether they parse. *)
Theorem age_raises_for_year_zero (parse : string -> option Timestamp)
        (dob_w3 dob_end : cell) :
  _age_years parse dob_w3 dob_end "000010" = Raise ValueError.
Proof. reflexivity. Qed.

(** * Further properties of the pipeline *)

(** ** Trimming and case *)

Lemma lstrip_head (s : string) :
  match Py.lstrip s with
  | EmptyString => True
  | String c _ => Py.isspace c = false
  end.
Proof.
  induction s as [|c r IH]; [done|]. simpl.
  by destruct (Py.isspace c) eqn:Hc.
Qed.

Lemma rstrip_keeps_head (c : ascii) (r : string) :
  Py.isspace c = false -> exists t, Py.rstrip (String c r) = String c t.
Proof.
  intros Hc. simpl. destruct (Py.rstrip r); rewrite ?Hc; by eexists.
Qed.

Lemma rstrip_idem (s : string) : Py.rstrip (Py.rstrip s) = Py.rstrip s.
Proof.
  induction s as [|c r IH]; [done|]. simpl.
  destruct (Py.rstrip r) as [|d t] eqn:Hr.
  - destruct (Py.isspace c) eqn:Hc; [done|]. simpl. by rewrite Hc.
  - change (Py.rstrip (String c (String d t)))
      with (match Py.rstrip (String d t) with
            | EmptyString =>
                if Py.isspace c then EmptyString else String c EmptyString
            | u => String c u
            end).
    by rewrite IH.
Qed.

Lemma lstrip_fixed (s : string) :
  match s with EmptyString => True | String c _ => Py.isspace c = false end ->
  Py.lstrip s = s.
Proof. destruct s as [|c r]; [done|]. simpl. by intros ->. Qed.

(** A trimmed text has no whitespace at either end. *)
Lemma strip_head (s : string) :
  match Py.strip s with
  | EmptyString => True
  | String c _ => Py.isspace c = false
  end.
Proof.
  unfold Py.strip. pose proof (lstrip_head s) as Hl.
  destruct (Py.lstrip s) as [|c r]; [done|].
  destruct (rstrip_keeps_head c r Hl) as [t ->]. done.
Qed.

Lemma strip_idem (s : string) : Py.strip (Py.strip s) = Py.strip s.
Proof.
  unfold Py.strip at 1.
  rewrite (lstrip_fixed (Py.strip s)) by apply strip_head.
  unfold Py.strip. apply rstrip_idem.
Qed.

Lemma upper_char_facts (c : ascii) :
  Py.isspace (Py.upper_char c) = Py.isspace c
  /\ Py.upper_char (Py.upper_char c) = Py.upper_char c
  /\ Py.upper_char (Py.lower_char c) = Py.upper_char c.
Proof.
  destruct c as [[] [] [] [] [] [] [] []]; vm_compute; done.
Qed.

Lemma lstrip_upper (s : string) :
  Py.lstrip (Py.upper s) = Py.upper (Py.lstrip s).
Proof.
  induction s as [|c r IH]; [done|].
  change (Py.upper (String c r)) with (String (Py.upper_char c) (Py.upper r)).
  simpl. destruct (upper_char_facts c) as [-> _].
  by destruct (Py.isspace c).
Qed.

Lemma rstrip_upper (s : string) :
  Py.rstrip (Py.upper s) = Py.upper (Py.rstrip s).
Proof.
  induction s as [|c r IH]; [done|].
  change (Py.upper (String c r)) with (String (Py.upper_char c) (Py.upper r)).
  simpl. rewrite IH. destruct (upper_char_facts c) as [Hc _].
  destruct (Py.rstrip r) as [|d t]; simpl.
  - rewrite Hc. by destruct (Py.isspace c).
  - done.
Qed.

Lemma strip_upper (s : string) :
  Py.strip (Py.upper s) = Py.upper (Py.strip s).
Proof. unfold Py.strip. by rewrite lstrip_upper, rstrip_upper. Qed.

Lemma upper_idem (s : string) : Py.upper (Py.upper s) = Py.upper s.
Proof.
  induction s as [|c r IH]; [done|]. unfold Py.upper in *. simpl.
  rewrite IH. by destruct (upper_char_facts c) as (_ & -> & _).
Qed.

Lemma upper_lower (s : string) : Py.upper (Py.lower s) = Py.upper s.
Proof.
  induction s as [|c r IH]; [done|]. unfold Py.upper, Py.lower in *. simpl.
  rewrite IH. by destruct (upper_char_facts c) as (_ & _ & ->).
Qed.

Lemma lower_char_space (c : ascii) :
  Py.isspace (Py.lower_char c) = Py.isspace c.
Proof. destruct c as [[] [] [] [] [] [] [] []]; vm_compute; done. Qed.

Lemma strip_lower (s : string) :
  Py.strip (Py.lower s) = Py.lower (Py.strip s).
Proof.
  unfold Py.strip.
  assert (Hl : forall t, Py.lstrip (Py.lower t) = Py.lower (Py.lstrip t)).
  { induction t as [|c r IH]; [done|].
    change (Py.lower (String c r))
      with (String (Py.lower_char c) (Py.lower r)).
    simpl. rewrite lower_char_space. by destruct (Py.isspace c). }
  assert (Hr : forall t, Py.rstrip (Py.lower t) = Py.lower (Py.rstrip t)).
  { induction t as [|c r IH]; [done|].
    change (Py.lower (String c r))
      with (String (Py.lower_char c) (Py.lower r)).
    simpl. rewrite IH. destruct (Py.rstrip r) as [|d t]; simpl; [|done].
    rewrite lower_char_space. by destruct (Py.isspace c). }
  by rewrite Hl, Hr.
Qed.

(** Normalizing the [id] and [term_code] columns a second time changes
    nothing: a normalized key is trimmed, so it has no whitespace in
    front, and a text and its trimmed form get the same key. *)
Theorem normalize_key_idempotent (c : cell) :
  normalize_key (Some (normalize_key c)) = normalize_key c
  /\ Py.strip (normalize_key c) = normalize_key c
  /\ match normalize_key c with
     | EmptyString => True
     | String a _ => Py.isspace a = false
     end.
Proof.
  unfold normalize_key. simpl. split; [apply strip_idem|].
  split; [apply strip_idem | apply strip_head].
Qed.

(** The join key of a college, degree or major does not depend on the
    case of the text nor on the whitespace around it, and building the
    key from a key gives the key back; so enrollment and catalogue rows
    that differ only in case or surrounding whitespace join. *)
Theorem text_key_canonical (s : string) :
  text_key (Some (text_key (Some s))) = text_key (Some s)
  /\ text_key (Some (Py.lower s)) = text_key (Some s)
  /\ text_key (Some (Py.upper s)) = text_key (Some s)
  /\ text_key (Some (Py.strip s)) = text_key (Some s).
Proof.
  unfold text_key. simpl. repeat split.
  - by rewrite strip_upper, strip_idem, upper_idem.
  - by rewrite strip_lower, upper_lower.
  - by rewrite strip_upper, upper_idem.
  - by rewrite strip_idem.
Qed.

(** ** The category is never blank *)

Lemma clean_trimmed (raw : cell) : Py.strip (clean raw) = clean raw.
Proof.
  pose proof (clean_cases raw) as H. destruct raw as [s|]; rewrite H.
  - apply strip_idem.
  - done.
Qed.

(** The race/ethnicity category is one of the three fixed labels or the
    trimmed race text; it is never the empty text and never has
    whitespace around it. *)
Theorem race_ethnicity_never_blank (row : Merged) :
  _race_ethnicity_du row <> ""
  /\ Py.strip (_race_ethnicity_du row) = _race_ethnicity_du row
  /\ (_race_ethnicity_du row = "International"
      \/ _race_ethnicity_du row = "Hispanic or Latino"
      \/ _race_ethnicity_du row = "Unknown"
      \/ (_race_ethnicity_du row = race row
          /\ exists s, race_raw row = Some s /\ race row = Py.strip s)).
Proof.
  unfold _race_ethnicity_du.
  destruct (truthy (visa row) && _); [by auto|].
  destruct (String.eqb _ "hispanic or latino"); [by auto 6|].
  destruct (truthy (race row)) eqn:Hr; [|by auto 6].
  apply truthy_true in Hr. split; [done|]. split.
  - apply clean_trimmed.
  - do 3 right. split; [done|]. unfold race in *.
    pose proof (clean_cases (race_raw row)) as Hc.
    destruct (race_raw row) as [s|]; [by exists s | congruence].
Qed.

(** ** The as-of date and the age *)

(** Whenever a term code has an as-of date, it is the first day of
    March, July or October of the year the four leading digits give, a
    year from 1 to 9999, and the month is the one of the integer the two
    last characters read as. *)
Theorem asof_from_term_shape (term_code : string) (ts : Timestamp) :
  _asof_from_term term_code = Ok (Some ts) ->
  day ts = 1
  /\ (month ts = 3 \/ month ts = 7 \/ month ts = 10)
  /\ 1 <= year ts <= 9999
  /\ (6 <= String.length term_code)%nat
  /\ Py.int (Py.first_chars 4 term_code) = Some (year ts)
  /\ exists suff, Py.int (Py.last_chars 2 term_code) = Some suff
                  /\ month ts = asof_month_spec suff.
Proof.
  intros Hts.
  destruct (6 <=? String.length term_code)%nat eqn:Hlen;
    [|by unfold _asof_from_term in Hts; rewrite Hlen in Hts].
  destruct (Py.isdigit (Py.first_chars 4 term_code)) eqn:Hd;
    [|by unfold _asof_from_term in Hts; rewrite Hlen, Hd in Hts].
  apply Nat.leb_le in Hlen.
  destruct (Py.int (Py.first_chars 4 term_code)) as [y|] eqn:Hy.
  2: { assert (_asof_from_term term_code = Raise ValueError) as Hr
         by (apply asof_from_term_raises; auto).
       congruence. }
  pose proof (year_of_term term_code y Hd Hy) as Hrange.
  destruct (Py.int (Py.last_chars 2 term_code)) as [suff|] eqn:Hs.
  - destruct (decide (y = 0)) as [->|Hy0].
    + assert (_asof_from_term term_code = Raise ValueError) as Hr.
      { apply asof_from_term_raises. split; [done|]. split; [done|].
        right. by eauto. }
      congruence.
    + rewrite (asof_from_term_date term_code y suff) in Hts
        by (done || lia).
      injection Hts as <-. simpl.
      pose proof (asof_month_spec_cases suff).
      repeat split; try done; try lia. by exists suff.
  - rewrite asof_from_term_unparseable in Hts; [congruence|].
    right. right. split; [by exists y | done].
Qed.

Lemma asof_from_term_shape_witness :
  day (mkTimestamp 2022 3 1) = 1
  /\ (month (mkTimestamp 2022 3 1) = 3 \/ month (mkTimestamp 2022 3 1) = 7
      \/ month (mkTimestamp 2022 3 1) = 10)
  /\ 1 <= year (mkTimestamp 2022 3 1) <= 9999
  /\ (6 <= String.length "202220")%nat
  /\ Py.int (Py.first_chars 4 "202220") = Some (year (mkTimestamp 2022 3 1))
  /\ exists suff, Py.int (Py.last_chars 2 "202220") = Some suff
                  /\ month (mkTimestamp 2022 3 1) = asof_month_spec suff.
Proof.
  apply (asof_from_term_shape "202220" (mkTimestamp 2022 3 1)). reflexivity.
Defined.

(** The age for malformed input. A term code that is too short or does
    not start with four digits gives a missing age and raises nothing,
    and so does one whose four digits read as an integer and whose two
    last characters do not. A birth date that does not parse gives a
    missing age whenever the term code is too short, does not start with
    four digits, or has four digits that read as an integer other than
    0. A term code of six characters or more whose four leading
    characters pass [isdigit] but do not read as an integer raises. *)
Theorem age_missing_for_malformed_input
        (parse : string -> option Timestamp)
        (dob_w3 dob_end : cell) (term_code : string) :
  ((String.length term_code < 6)%nat
   \/ Py.isdigit (Py.first_chars 4 term_code) = false
   \/ (is_Some (Py.int (Py.first_chars 4 term_code))
       /\ Py.int (Py.last_chars 2 term_code) = None) ->
   _age_years parse dob_w3 dob_end term_code = Ok None)
  /\ (to_datetime parse (prefer_w3 dob_w3 dob_end) = None ->
      (String.length term_code < 6)%nat
      \/ Py.isdigit (Py.first_chars 4 term_code) = false
      \/ (exists y, Py.int (Py.first_chars 4 term_code) = Some y /\ y <> 0) ->
      _age_years parse dob_w3 dob_end term_code = Ok None)
  /\ ((6 <= String.length term_code)%nat ->
      Py.isdigit (Py.first_chars 4 term_code) = true ->
      Py.int (Py.first_chars 4 term_code) = None ->
      _age_years parse dob_w3 dob_end term_code = Raise ValueError).
Proof.
  split; [|split].
  - intros Hterm.
    apply (age_missing_when_unparseable parse _ _ _ None); [|by right].
    by apply asof_from_term_unparseable.
  - intros Hdob Hterm.
    destruct (_asof_from_term term_code) as [asof|e] eqn:Hasof.
    + apply (age_missing_when_unparseable parse _ _ _ asof); [done|by left].
    + exfalso.
      apply asof_from_term_raises in Hasof as (Hlen & Hd & Hyear).
      destruct Hterm as [Hshort|[Hnd|(y & Hy & Hy0)]];
        [lia | congruence |].
      destruct Hyear as [Hnone|[Hzero _]]; congruence.
  - intros Hlen Hd Hy.
    assert (_asof_from_term term_code = Raise ValueError) as Hraise
      by (apply asof_from_term_raises; auto).
    unfold _age_years. by rewrite Hraise.
Qed.

Lemma age_missing_for_malformed_input_witness :
  _age_years iso_date (Some "2000-06-15") None "2022" = Ok None
  /\ _age_years iso_date (Some "15 June") None "202210" = Ok None
  /\ _age_years iso_date (Some "2000-06-15") None term_code_superscript
     = Raise ValueError.
Proof.
  split; [|split].
  - destruct (age_missing_for_malformed_input
                iso_date (Some "2000-06-15") None "2022") as (Hterm & _).
    apply Hterm. left. apply Nat.ltb_lt. reflexivity.
  - destruct (age_missing_for_malformed_input
                iso_date (Some "15 June") None "202210") as (_ & Hdob & _).
    apply Hdob.
    + reflexivity.
    + right. right. exists 2022. split; [reflexivity | lia].
  - destruct (age_missing_for_malformed_input
                iso_date (Some "2000-06-15") None term_code_superscript)
      as (_ & _ & Hraise).
    apply Hraise; reflexivity.
Defined.

(** An age is the number of birthdays reached by the as-of date: the
    birthday of that age is on or before the as-of date, and the next
    one is after it. *)
Theorem age_counts_birthdays (parse : string -> option Timestamp)
        (dob_w3 dob_end : cell) (term_code : string) (a : Z) :
  _age_years parse dob_w3 dob_end term_code = Ok (Some a) ->
  exists dt asof,
    to_datetime parse (prefer_w3 dob_w3 dob_end) = Some dt
    /\ _asof_from_term term_code = Ok (Some asof)
    /\ date_le (birthday dt a) asof
    /\ ~ date_le (birthday dt (a + 1)) asof.
Proof.
  unfold _age_years.
  destruct (_asof_from_term term_code) as [[asof|]|e]; simpl;
    destruct (to_datetime parse (prefer_w3 dob_w3 dob_end)) as [dt|];
    try discriminate.
  rewrite pair_ltb_spec. simpl. intros Ha.
  exists dt, asof. split; [done|]. split; [done|].
  unfold date_le, birthday. simpl.
  case_bool_decide; injection Ha as <-; lia.
Qed.

Lemma age_counts_birthdays_witness :
  exists dt asof,
    to_datetime iso_date (prefer_w3 (Some "2000-06-15") None) = Some dt
    /\ _asof_from_term "202220" = Ok (Some asof)
    /\ date_le (birthday dt 21) asof
    /\ ~ date_le (birthday dt (21 + 1)) asof.
Proof.
  apply (age_counts_birthdays iso_date (Some "2000-06-15") None "202220" 21).
  reflexivity.
Defined.

(** ** Grade counts, coverage and the range of the GPA *)

Lemma points_of_range (rows : list GradeRow) :
  Forall (fun p => (0 <= p /\ p <= 4)%Q) (points_of rows).
Proof.
  unfold points_of. induction rows as [|r rows IH]; [constructor|].
  rewrite omap_cons.
  destruct (GRADE_POINTS !! letter_grade r) as [p|] eqn:Hp; [|done].
  constructor; [|done].
  apply GRADE_POINTS_items in Hp. unfold grade_points_items in Hp.
  repeat (apply elem_of_cons in Hp as [Hp|Hp];
          [injection Hp as _ ->; split; by vm_compute|]).
  by apply elem_of_nil in Hp.
Qed.

Lemma Qsum_range (l : list Q) :
  Forall (fun p => (0 <= p /\ p <= 4)%Q) l ->
  (0 <= Qsum l /\ Qsum l <= 4 * inject_Z (Z.of_nat (length l)))%Q.
Proof.
  induction 1 as [|p l [Hlo Hhi] _ [IHlo IHhi]]; simpl.
  - split; by vm_compute.
  - split.
    + replace 0%Q with (0 + 0)%Q by reflexivity.
      by apply Qplus_le_compat.
    + rewrite Nat2Z.inj_succ, <- Z.add_1_l, inject_Z_plus.
      rewrite Qmult_plus_distr_r.
      apply Qplus_le_compat; [|done].
      by rewrite Qmult_1_r.
Qed.

Lemma mean_range (l : list Q) :
  l <> [] -> Forall (fun p => (0 <= p /\ p <= 4)%Q) l ->
  (0 <= mean l /\ mean l <= 4)%Q.
Proof.
  intros Hne Hl. destruct (Qsum_range l Hl) as [Hlo Hhi]. unfold mean.
  assert (0 < inject_Z (Z.of_nat (length l)))%Q as Hpos.
  { rewrite <- (Zlt_Qlt 0). destruct l; [done|]. simpl. lia. }
  split.
  - apply Qle_shift_div_l; [done|]. by rewrite Qmult_0_l.
  - by apply Qle_shift_div_r.
Qed.

(** Every term GPA lies between 0 and 4, and its course count is at
    least one. *)
Theorem term_gpa_range (grades : list GradeRow) (k : Key) (tg : TermGpa) :
  term_gpa grades !! k = Some tg ->
  (0 <= term_gpa_value tg /\ term_gpa_value tg <= 4)%Q
  /\ (1 <= course_count tg)%nat.
Proof.
  intros Htg.
  assert (contributing k grades <> []) as Hne.
  { intros Hnil. by rewrite term_gpa_lookup, Hnil in Htg. }
  rewrite term_gpa_lookup_Some in Htg by done. injection Htg as <-.
  cbn [term_gpa_value course_count].
  pose proof (length_points_of_contributing k grades) as Hlen.
  split.
  - apply mean_range; [|apply points_of_range].
    intros Hp. rewrite Hp in Hlen.
    by destruct (contributing k grades).
  - destruct (contributing k grades); [done | simpl; lia].
Qed.

Lemma term_gpa_range_witness :
  (0 <= mean [4.0; 3.3] /\ mean [4.0; 3.3] <= 4)%Q /\ (1 <= 2)%nat.
Proof.
  apply (term_gpa_range grades_example ("1001", "202410")
           (mkTermGpa (mean [4.0%Q; 3.3%Q]) 2)).
  reflexivity.
Defined.

Lemma grades_term_lookup (grades : list GradeRow) (k : Key) :
  grades_term grades !! k
  = match with_key g_key k grades with
    | [] => None
    | g => Some (length g)
    end.
Proof.
  unfold grades_term. rewrite lookup_fmap, groupby_lookup.
  by destruct (with_key g_key k grades).
Qed.

Lemma length_contributing_le (k : Key) (grades : list GradeRow) :
  (length (contributing k grades) <= length (with_key g_key k grades))%nat.
Proof.
  unfold contributing. induction grades as [|r grades IH]; [done|].
  rewrite !filter_cons.
  destruct (decide (g_key r = k /\ contributes r)) as [[Hk _]|Hn].
  - rewrite decide_True by done. simpl. lia.
  - case_decide; simpl; lia.
Qed.

(** The unfiltered count of [grades_term] is the number of grade rows of
    the key, at least one; a key with a term GPA has such a count, and
    the course count beside the GPA is at most that number. *)
Theorem grades_term_counts (grades : list GradeRow) (k : Key) :
  (forall n, grades_term grades !! k = Some n ->
     n = length (with_key g_key k grades) /\ (1 <= n)%nat)
  /\ (grades_term grades !! k = None <-> k ∉ (g_key <$> grades))
  /\ (forall tg, term_gpa grades !! k = Some tg ->
        exists n, grades_term grades !! k = Some n
                  /\ (course_count tg <= n)%nat).
Proof.
  rewrite grades_term_lookup. split; [|split].
  - intros n. destruct (with_key g_key k grades); [done|].
    intros [= <-]. simpl. split; [done|lia].
  - rewrite <- with_key_nil_iff. by destruct (with_key g_key k grades).
  - intros tg. rewrite term_gpa_lookup.
    pose proof (length_contributing_le k grades) as Hle.
    destruct (contributing k grades) as [|r rows]; [done|].
    intros [= <-]. simpl in *.
    destruct (with_key g_key k grades) as [|g gs]; simpl in *; [lia|].
    eexists. split; [done|]. simpl. lia.
Qed.

Lemma grades_term_counts_witness :
  exists n, grades_term grades_example !! ("1001", "202410") = Some n
            /\ (course_count (mkTermGpa (mean [4.0%Q; 3.3%Q]) 2) <= n)%nat.
Proof.
  apply (grades_term_counts grades_example ("1001", "202410")).
  reflexivity.
Defined.

Lemma grades_term_None (grades : list GradeRow) (k : Key) :
  grades_term grades !! k = None <-> k ∉ grade_keys grades.
Proof.
  rewrite grades_term_lookup. unfold grade_keys.
  rewrite elem_of_list_to_set, <- with_key_nil_iff.
  by destruct (with_key g_key k grades).
Qed.

(** The coverage check and the join to the grade counts agree: the
    matched keys and the enrollment keys without grades split the
    enrollment keys in two; the join keeps every enrollment row once, in
    order; and a row has a course count exactly when its key is matched,
    the count being the number of grade rows of the key. *)
Theorem coverage_and_grade_join (fall_enrollment : list Enrollment)
        (grades : list GradeRow) :
  matched fall_enrollment grades ⊆ enroll_keys fall_enrollment
  /\ (size (matched fall_enrollment grades)
      + size (enroll_keys fall_enrollment ∖ grade_keys grades)
      = size (enroll_keys fall_enrollment))%nat
  /\ fst <$> enroll_plus_gr fall_enrollment grades = fall_enrollment
  /\ (forall x, x ∈ enroll_plus_gr fall_enrollment grades ->
        (is_Some x.2 <-> f_key x.1 ∈ matched fall_enrollment grades)
        /\ (x.2 = None <->
            f_key x.1 ∈ enroll_keys fall_enrollment ∖ grade_keys grades)
        /\ (forall n, x.2 = Some n ->
              n = length (with_key g_key (f_key x.1) grades))).
Proof.
  unfold matched. split; [apply intersection_subseteq_l|].
  split; [|split].
  - rewrite <- size_union.
    + f_equal. apply set_eq. intros k.
      rewrite elem_of_union, elem_of_intersection, elem_of_difference.
      destruct (decide (k ∈ grade_keys grades)); tauto.
    + intros k. rewrite elem_of_intersection, elem_of_difference. tauto.
  - unfold enroll_plus_gr. rewrite <- list_fmap_compose.
    apply list_fmap_id.
  - unfold enroll_plus_gr.
    intros x (f & -> & Hf)%list_elem_of_fmap. simpl.
    assert (f_key f ∈ enroll_keys fall_enrollment) as Hin.
    { unfold enroll_keys. apply elem_of_list_to_set.
      by apply list_elem_of_fmap_2. }
    pose proof (grades_term_None grades (f_key f)) as Hnone.
    split; [|split].
    + rewrite elem_of_intersection, <- not_eq_None_Some, Hnone.
      split; [intros Hk; split; [done | by apply dec_stable]|].
      intros [_ Hk] Hout. done.
    + rewrite elem_of_difference, Hnone. tauto.
    + intros n Hn. rewrite grades_term_lookup in Hn.
      destruct (with_key g_key (f_key f) grades); [done|]. congruence.
Qed.

Lemma coverage_and_grade_join_witness :
  (1 = length
         (with_key g_key
            (f_key (mkEnrollment (Some "1001") (Some " 202410")
                      (Some "WK3") None None None None None None None None))
            [mkGradeRow "1001" "202410" (Some "A")]))%nat.
Proof.
  destruct (coverage_and_grade_join
              [mkEnrollment (Some "1001") (Some " 202410") (Some "WK3")
                 None None None None None None None None]
              [mkGradeRow "1001" "202410" (Some "A")])
    as (_ & _ & _ & Hrows).
  apply (Hrows (mkEnrollment (Some "1001") (Some " 202410") (Some "WK3")
                  None None None None None None None None, Some 1%nat)).
  - apply list_elem_of_singleton. reflexivity.
  - reflexivity.
Defined.

(** ** The validated left join and the program catalogue *)

Section LeftMergeFacts.

Context {L R K : Type} `{EqDecision K} (lkey : L -> K) (rkey : R -> K).

Lemma NoDup_matches (right : list R) (k : K) :
  NoDup (rkey <$> right) ->
  (length (filter (fun r => rkey r = k) right) <= 1)%nat.
Proof.
  induction right as [|r right IH]; simpl; [intros _; lia|].
  intros [Hr Hright]%NoDup_cons. rewrite filter_cons.
  case_decide as Hk; [|by apply IH]. simpl.
  destruct (filter (fun r => rkey r = k) right) as [|y ?] eqn:Hf;
    [simpl; lia|].
  exfalso.
  assert (y ∈ filter (fun r => rkey r = k) right)
    as [Hy Hin]%list_elem_of_filter by (rewrite Hf; left).
  apply Hr, list_elem_of_fmap. exists y. split; [congruence|done].
Qed.

(** With unique right keys the join is a lookup: one row for every left
    row. *)
Lemma merge_left_unique (left : list L) (right : list R) :
  NoDup (rkey <$> right) ->
  merge_left lkey rkey left right
  = (fun l => (l, head (filter (fun r => rkey r = lkey l) right))) <$> left.
Proof.
  intros Hnd. unfold merge_left.
  induction left as [|l left IH]; [done|].
  rewrite bind_cons, fmap_cons, IH.
  pose proof (NoDup_matches right (lkey l) Hnd) as Hle.
  destruct (filter (fun r => rkey r = lkey l) right) as [|r [|r' ms]];
    simpl in *; [done | done | lia].
Qed.

End LeftMergeFacts.

(** The catalogue join fails with [MergeError] exactly when two catalogue
    rows have the same normalized (college, degree, major), whether or
    not an enrollment row uses that key; otherwise [df_final] has every
    enrollment row once, in order, with the program of the one catalogue
    row of its key, and a missing program when the catalogue has none. *)
Theorem df_final_spec (enroll_plus : list (Enrollment * option nat))
        (program_data : list ProgramRow) :
  (df_final enroll_plus program_data = MergeError <->
   ~ NoDup (program_key3 <$> program_data))
  /\ (forall rows, df_final enroll_plus program_data = MergeOk rows ->
        rows = df_final_rows enroll_plus program_data
        /\ length rows = length enroll_plus)
  /\ (forall (pre mid post : list ProgramRow) (p1 p2 : ProgramRow),
        program_data = (pre ++ p1 :: mid ++ p2 :: post)%list ->
        program_key3 p1 = program_key3 p2 ->
        df_final enroll_plus program_data = MergeError)
  /\ (forall x, x ∈ enroll_plus ->
        enroll_key3 x.1 ∉ (program_key3 <$> program_data) ->
        with_program x.1
          (head (filter (fun p => program_key3 p = enroll_key3 x.1)
                   program_data))
        = with_program x.1 None).
Proof.
  assert (Hcases :
    (NoDup (program_key3 <$> program_data)
     /\ df_final enroll_plus program_data
        = MergeOk (df_final_rows enroll_plus program_data))
    \/ (~ NoDup (program_key3 <$> program_data)
        /\ df_final enroll_plus program_data = MergeError)).
  { unfold df_final, merge_left_m1.
    destruct (bool_decide_reflect (NoDup (program_key3 <$> program_data)))
      as [Hnd|Hdup]; [left | by right].
    split; [done|]. rewrite merge_left_unique by done.
    unfold df_final_rows. by rewrite <- list_fmap_compose. }
  split; [|split; [|split]].
  - destruct Hcases as [[Hnd ->]|[Hdup ->]]; [|done].
    split; [done | by intros Hdup].
  - intros rows Hrows. destruct Hcases as [[_ Hok]|[_ Herr]]; [|congruence].
    rewrite Hok in Hrows. injection Hrows as <-.
    split; [done|]. unfold df_final_rows. by rewrite length_fmap.
  - intros pre mid post p1 p2 -> Hkey.
    destruct Hcases as [[Hnd _]|[_ Herr]]; [|done]. exfalso.
    rewrite fmap_app, fmap_cons, fmap_app, fmap_cons in Hnd.
    apply NoDup_app in Hnd as (_ & _ & Hnd).
    apply NoDup_cons in Hnd as [Hnd _]. apply Hnd.
    rewrite Hkey. apply elem_of_app. right. left.
  - intros x _ Hout. f_equal.
    destruct (filter _ program_data) as [|p ps] eqn:Hf; [done|].
    exfalso. apply Hout.
    assert (p ∈ filter (fun p => program_key3 p = enroll_key3 x.1)
                  program_data)
      as [Hp Hin]%list_elem_of_filter by (rewrite Hf; left).
    apply list_elem_of_fmap. by exists p.
Qed.

Lemma df_final_spec_witness :
  df_final enroll_plus_example catalogue_twice = MergeError
  /\ with_program (enrollment_of "1002" "202410" "WK3" "ARTS" "BA" "MUSIC")
       (head (filter
                (fun p =>
                   program_key3 p
                   = enroll_key3
                       (enrollment_of "1002" "202410" "WK3" "ARTS" "BA"
                          "MUSIC"))
                catalogue_ok))
     = with_program (enrollment_of "1002" "202410" "WK3" "ARTS" "BA" "MUSIC")
         None.
Proof.
  split.
  - destruct (df_final_spec enroll_plus_example catalogue_twice)
      as (_ & _ & Htwice & _).
    apply (Htwice []
             [mkProgramRow (Some "HUM") (Some "BA") (Some "HISTORY")
                (Some "History")]
             []
             (mkProgramRow (Some "ARTS") (Some "BA") (Some "BIOLOGY")
                (Some "Life Sciences"))
             (mkProgramRow (Some " arts") (Some "ba") (Some "Biology ")
                (Some "Biology"))); reflexivity.
  - destruct (df_final_spec enroll_plus_example catalogue_ok)
      as (_ & _ & _ & Hnone).
    apply (Hnone (enrollment_of "1002" "202410" "WK3" "ARTS" "BA" "MUSIC",
                  None)).
    + apply elem_of_cons. right. apply list_elem_of_singleton. reflexivity.
    + apply (bool_decide_unpack _). vm_compute. exact I.
Defined.

(** ** The export *)

Lemma first_of_Some (tag : string) (k : Key) (df : list EnrollRow)
      (a : EnrollRow) :
  first_of tag k df = Some a ->
  a ∈ df /\ e_key a = k /\ census a = Some tag.
Proof.
  unfold first_of. intros Hhead.
  destruct (filter _ df) as [|x xs] eqn:Hf; [done|].
  injection Hhead as ->.
  assert (a ∈ filter (fun r => e_key r = k /\ census r = Some tag) df)
    as [[? ?] ?]%list_elem_of_filter by (rewrite Hf; left).
  done.
Qed.

Lemma first_of_is_Some (tag : string) (df : list EnrollRow) (r : EnrollRow) :
  r ∈ df -> census r = Some tag -> is_Some (first_of tag (e_key r) df).
Proof.
  intros Hin Htag. unfold first_of.
  destruct (filter _ df) as [|x xs] eqn:Hf; [|by eexists].
  exfalso. eapply (filter_nil_not_elem_of _ df r); [exact Hf | | done].
  by split.
Qed.

(** The keys of [student_term] are the keys of the rows tagged "WK3" or
    "EOT". *)
Lemma elem_of_keys_student_term (df : list EnrollRow) (k : Key) :
  k ∈ (m_key <$> student_term df) <->
  exists r, r ∈ df /\ e_key r = k
            /\ (census r = Some "WK3" \/ census r = Some "EOT").
Proof.
  split.
  - intros (m & -> & Hm%elem_of_student_term)%list_elem_of_fmap.
    destruct (first_of "WK3" (m_key m) df) as [a|] eqn:Ha.
    + apply first_of_Some in Ha as (? & ? & ?). exists a. auto.
    + destruct (first_of "EOT" (m_key m) df) as [b|] eqn:Hb; [|done].
      apply first_of_Some in Hb as (? & ? & ?). exists b. auto.
  - intros (r & Hin & <- & Htag).
    apply dec_stable. intros Hout%with_key_nil_iff.
    rewrite with_key_student_term in Hout.
    destruct Htag as [Htag|Htag];
      destruct (first_of_is_Some _ df r Hin Htag) as [a Ha];
      rewrite Ha in Hout; by destruct (first_of _ _ _).
Qed.

Lemma NoDup_student_term (df : list EnrollRow) :
  NoDup (m_key <$> student_term df).
Proof.
  apply NoDup_keys. intros k. rewrite with_key_student_term.
  destruct (first_of "WK3" k df), (first_of "EOT" k df); simpl; lia.
Qed.

Lemma duplicated_NoDup {A : Type} (key : A -> Key) (l : list A) :
  NoDup (key <$> l) -> existsb (fun b => b) (duplicated key l) = false.
Proof.
  intros Hnd. apply not_true_iff_false.
  intros (b & Hb%list_elem_of_In & ->)%existsb_exists.
  apply list_elem_of_fmap in Hb as (x & Hx & _).
  symmetry in Hx. apply bool_decide_eq_true in Hx.
  pose proof (NoDup_keys_inv key l (key x) Hnd). lia.
Qed.

Lemma ensure_one_row_NoDup (t : list StudentLevel) :
  NoDup (sl_key <$> t) -> ensure_one_row t = t.
Proof.
  intros Hnd. unfold ensure_one_row. by rewrite duplicated_NoDup.
Qed.

Lemma age_raises (parse : string -> option Timestamp) (m : Merged)
      (e : exn) :
  age parse m = Raise e <-> _asof_from_term (term_code m) = Raise e.
Proof.
  unfold age, _age_years.
  destruct (_asof_from_term (term_code m)) as [asof|e']; simpl;
    [|split; congruence].
  split; [|done].
  destruct (to_datetime _ _), asof; try done. by destruct (pair_ltb _ _).
Qed.

Lemma apply_age_Ok (parse : string -> option Timestamp)
      (rows : list Merged) (r : list (Merged * option Z)) :
  apply_age parse rows = Ok r -> fst <$> r = rows.
Proof.
  revert r. induction rows as [|m rows IH]; intros r; simpl.
  - by intros [= <-].
  - destruct (age parse m) as [a|]; simpl; [|done].
    destruct (apply_age parse rows) as [r'|]; simpl; [|done].
    intros [= <-]. rewrite fmap_cons. f_equal. by apply IH.
Qed.

Lemma apply_age_Raise (parse : string -> option Timestamp)
      (rows : list Merged) :
  apply_age parse rows = Raise ValueError <->
  exists m, m ∈ rows /\ _asof_from_term (term_code m) = Raise ValueError.
Proof.
  induction rows as [|m rows IH]; simpl.
  - split; [done|]. by intros (m & Hm%elem_of_nil & _).
  - destruct (age parse m) as [a|[]] eqn:Ha; simpl.
    + destruct (apply_age parse rows) as [r'|[]]; simpl.
      * split; [done|]. intros (m' & [->|Hin]%elem_of_cons & Hm').
        -- apply (age_raises parse) in Hm'. congruence.
        -- assert (@Ok (list (Merged * option Z)) r' = Raise ValueError)
             by (apply IH; eauto).
           done.
      * split; [|done]. intros _.
        destruct IH as [(m' & Hin & Hm') _]; [done|].
        exists m'. split; [by right | done].
    + split; [|done]. intros _. exists m. split; [by left|].
      by apply (age_raises parse).
Qed.

(** When the export succeeds, the final duplicate check finds nothing to
    drop: the table has one row for every row of [student_term], in the
    same order and with the same keys, and no key twice. *)
Theorem student_level_keeps_every_row
        (parse : string -> option Timestamp) (round2 : Q -> Q)
        (grades : list GradeRow) (df : list EnrollRow)
        (t : list StudentLevel) :
  student_level parse round2 grades df = Ok t ->
  sl_key <$> t = m_key <$> student_term df
  /\ length t = length (student_term df)
  /\ NoDup (sl_key <$> t)
  /\ exists ages : list (Merged * option Z),
       fst <$> ages = student_term df
       /\ t = student_level_row round2 (term_gpa grades) <$> ages.
Proof.
  unfold student_level.
  destruct (apply_age parse (student_term df)) as [ages|] eqn:Hages;
    simpl; [|done].
  apply apply_age_Ok in Hages.
  assert (sl_key <$> (student_level_row round2 (term_gpa grades) <$> ages)
          = m_key <$> student_term df) as Hkeys.
  { rewrite <- Hages, <- !list_fmap_compose. done. }
  rewrite ensure_one_row_NoDup
    by (rewrite Hkeys; apply NoDup_student_term).
  intros [= <-]. split; [done|]. split; [|split].
  - by rewrite <- Hages, !length_fmap.
  - rewrite Hkeys. apply NoDup_student_term.
  - by exists ages.
Qed.

Lemma student_level_keeps_every_row_witness :
  exists t,
    student_level iso_date (fun q => q) grades_example df_example = Ok t
    /\ length t = length (student_term df_example).
Proof.
  eexists. split; [vm_compute; reflexivity|].
  apply (student_level_keeps_every_row iso_date (fun q => q)
           grades_example df_example).
  vm_compute. reflexivity.
Defined.

(** The export raises, and the run ends, exactly when some row of
    [df_final] tagged "WK3" or "EOT" has a term code of six characters or
    more whose four leading characters pass [isdigit] and either do not
    read as an integer or read as the year 0 before two last characters
    that read as an integer; the birth dates and the grades play no part
    in it. *)
Theorem student_level_raises_iff
        (parse : string -> option Timestamp) (round2 : Q -> Q)
        (grades : list GradeRow) (df : list EnrollRow) :
  student_level parse round2 grades df = Raise ValueError <->
  exists r, r ∈ df
            /\ (census r = Some "WK3" \/ census r = Some "EOT")
            /\ (6 <= String.length (e_term_code r))%nat
            /\ Py.isdigit (Py.first_chars 4 (e_term_code r)) = true
            /\ (Py.int (Py.first_chars 4 (e_term_code r)) = None
                \/ (Py.int (Py.first_chars 4 (e_term_code r)) = Some 0
                    /\ is_Some (Py.int (Py.last_chars 2 (e_term_code r))))).
Proof.
  assert (student_level parse round2 grades df = Raise ValueError <->
          apply_age parse (student_term df) = Raise ValueError) as ->.
  { unfold student_level.
    destruct (apply_age parse (student_term df)) as [ages|[]]; simpl; [|done].
    split; discriminate. }
  rewrite apply_age_Raise. split.
  - intros (m & Hm & Hraise).
    assert (m_key m ∈ (m_key <$> student_term df)) as Hk
      by (by apply list_elem_of_fmap_2).
    apply elem_of_keys_student_term in Hk as (r & Hin & Hkey & Htag).
    apply asof_from_term_raises in Hraise.
    exists r. split; [done|]. split; [done|].
    assert (e_term_code r = term_code m) as -> by (by injection Hkey).
    done.
  - intros (r & Hin & Htag & Hraise).
    assert (e_key r ∈ (m_key <$> student_term df)) as Hk.
    { apply elem_of_keys_student_term. by exists r. }
    apply list_elem_of_fmap in Hk as (m & Hkey & Hm).
    exists m. split; [done|]. apply asof_from_term_raises.
    assert (term_code m = e_term_code r) as -> by (by injection Hkey).
    done.
Qed.

Lemma student_level_raises_iff_witness :
  student_level iso_date (fun q => q) grades_example df_year_zero
  = Raise ValueError
  /\ student_level iso_date (fun q => q) grades_example df_superscript
     = Raise ValueError.
Proof.
  split.
  - apply (student_level_raises_iff iso_date (fun q => q)
             grades_example df_year_zero).
    exists (mkEnrollRow "1001" "000010" (Some "WK3")
              (major_college "HISTORY" "ARTS")).
    split; [apply list_elem_of_singleton; reflexivity|].
    split; [left; reflexivity|].
    split; [apply Nat.leb_le; reflexivity|].
    split; [reflexivity|]. right. split; [reflexivity | by eexists].
  - apply (student_level_raises_iff iso_date (fun q => q)
             grades_example df_superscript).
    exists (mkEnrollRow "1001" term_code_superscript (Some "EOT")
              (major_college "HISTORY" "ARTS")).
    split; [apply list_elem_of_singleton; reflexivity|].
    split; [right; reflexivity|].
    split; [apply Nat.leb_le; reflexivity|].
    split; [reflexivity|]. left. reflexivity.
Defined.



(** The duplicate check of step 6 leaves a table without duplicate keys
    as it is, so running it a second time changes nothing. *)
Theorem ensure_one_row_idempotent (student_level : list StudentLevel) :
  ensure_one_row (ensure_one_row student_level) = ensure_one_row student_level
  /\ (NoDup (sl_key <$> student_level) ->
      ensure_one_row student_level = student_level).
Proof.
  split; [|apply ensure_one_row_NoDup].
  apply ensure_one_row_NoDup. unfold ensure_one_row.
  destruct (existsb _ _) eqn:Hdup.
  - apply NoDup_keys_drop_duplicates.
  - apply NoDup_keys. by apply duplicated_none.
Qed.

Lemma ensure_one_row_idempotent_witness :
  ensure_one_row [sl_first] = [sl_first].
Proof.
  apply (ensure_one_row_idempotent [sl_first]).
  apply (bool_decide_unpack _). vm_compute. exact I.
Defined.

Lemma student_level_Ok (parse : string -> option Timestamp)
      (round2 : Q -> Q) (grades : list GradeRow) (df : list EnrollRow)
      (t : list StudentLevel) :
  student_level parse round2 grades df = Ok t ->
  exists ages : list (Merged * option Z),
    fst <$> ages = student_term df
    /\ t = student_level_row round2 (term_gpa grades) <$> ages.
Proof.
  unfold student_level.
  destruct (apply_age parse (student_term df)) as [ages|] eqn:Hages;
    simpl; [|done].
  apply apply_age_Ok in Hages. intros Ht. exists ages. split; [done|].
  rewrite ensure_one_row_NoDup in Ht; [congruence|].
  rewrite <- list_fmap_compose.
  change (sl_key ∘ student_level_row round2 (term_gpa grades))
    with (m_key ∘ (fst : Merged * option Z -> Merged)).
  rewrite list_fmap_compose, Hages. apply NoDup_student_term.
Qed.

(** Every exported row keeps the invariants of the derivation: a row
    that declared late also persisted, the category is not blank, and
    the GPA and the course count are present together, the count being
    at least one. *)
Theorem exported_row_invariants
        (parse : string -> option Timestamp) (round2 : Q -> Q)
        (grades : list GradeRow) (df : list EnrollRow)
        (t : list StudentLevel) (r : StudentLevel) :
  student_level parse round2 grades df = Ok t -> r ∈ t ->
  (sl_undeclared_to_declared r = true -> sl_persisted_w3_to_end r = true)
  /\ sl_race_ethnicity r <> ""
  /\ (sl_term_gpa r = None <-> sl_course_count r = None)
  /\ (forall n, sl_course_count r = Some n -> (1 <= n)%nat)
  /\ (sl_term_gpa r = None <-> sl_key r ∉ (p_key <$> grades_gpa grades)).
Proof.
  intros (ages & _ & ->)%student_level_Ok
         ([m a] & -> & _)%list_elem_of_fmap.
  unfold student_level_row, sl_key. cbn [fst snd sl_undeclared_to_declared
    sl_persisted_w3_to_end sl_race_ethnicity sl_term_gpa sl_course_count
    sl_key sl_id sl_term_code].
  split; [|split; [|split; [|split]]].
  - unfold undeclared_to_declared.
    by intros [[? _]%andb_prop _]%andb_prop.
  - unfold _race_ethnicity_du.
    destruct (truthy (visa m) && _); [done|].
    destruct (String.eqb _ "hispanic or latino"); [done|].
    destruct (truthy (race m)) eqn:Hr; [|done]. by apply truthy_true.
  - by destruct (term_gpa grades !! m_key m).
  - intros n. destruct (term_gpa grades !! m_key m) as [tg|] eqn:Htg;
      [|done].
    intros [= <-]. rewrite term_gpa_lookup in Htg.
    destruct (contributing (m_key m) grades); [done|].
    injection Htg as <-. simpl. lia.
  - change (id m, term_code m) with (m_key m).
    rewrite <- with_key_nil_iff.
    unfold term_gpa. rewrite lookup_fmap, groupby_lookup.
    by destruct (with_key p_key (m_key m) (grades_gpa grades)).
Qed.

Lemma exported_row_invariants_witness :
  exists t r,
    student_level iso_date (fun q => q) grades_example df_example = Ok t
    /\ r ∈ t /\ sl_race_ethnicity r <> "".
Proof.
  eexists. eexists. split; [vm_compute; reflexivity|].
  split; [apply list_elem_of_here|].
  eapply (exported_row_invariants iso_date (fun q => q)
            grades_example df_example).
  - vm_compute. reflexivity.
  - apply list_elem_of_here.
Defined.

(** ** The rates of the analysis script *)

Lemma ratio_range (a b : nat) (q : Q) :
  (a <= b)%nat -> ratio a b = Some q -> (0 <= q /\ q <= 1)%Q.
Proof.
  intros Hab. unfold ratio. destruct b as [|b]; [done|]. intros [= <-].
  assert (0 < inject_Z (Z.of_nat (S b)))%Q as Hpos
    by (rewrite <- (Zlt_Qlt 0); lia).
  split.
  - apply Qle_shift_div_l; [done|]. rewrite Qmult_0_l.
    rewrite <- (Zle_Qle 0). lia.
  - apply Qle_shift_div_r; [done|]. rewrite Qmult_1_l.
    rewrite <- Zle_Qle. lia.
Qed.

Lemma count_true_le (f g : StudentLevel -> bool) (df : list StudentLevel) :
  (forall r, r ∈ df -> f r = true -> g r = true) ->
  (count_true f df <= count_true g df)%nat.
Proof.
  unfold count_true. induction df as [|r df IH]; intros Hfg; [done|].
  rewrite !filter_cons.
  assert (length (filter (fun r => f r = true) df)
          <= length (filter (fun r => g r = true) df))%nat as Hle.
  { apply IH. intros r' Hr'. apply Hfg. by right. }
  destruct (decide (f r = true)) as [Hf|Hf].
  - rewrite decide_True by (apply Hfg; [left | done]). simpl. lia.
  - case_decide; simpl; lia.
Qed.

(** The rates of the report: the persistence rate is missing exactly for
    an empty table, without a division by zero, and lies between 0 and 1
    otherwise; the share of persisters is missing exactly when nobody
    persisted; and on a table where declaring late implies persisting, as
    in every export, the late declarers are at most the persisters, who
    are at most all students, so both shares lie between 0 and 1. *)
Theorem report_rates (df : list StudentLevel) :
  (persistence_rate df = None <-> df = [])
  /\ (forall q, persistence_rate df = Some q -> (0 <= q /\ q <= 1)%Q)
  /\ (prop_of_persisters df = None <-> persisters df = 0%nat)
  /\ ((forall r, r ∈ df -> sl_undeclared_to_declared r = true ->
                 sl_persisted_w3_to_end r = true) ->
      (n_undecl_to_decl df <= persisters df)%nat
      /\ (persisters df <= total_students df)%nat
      /\ (forall q, prop_of_persisters df = Some q -> (0 <= q /\ q <= 1)%Q)
      /\ (forall q, prop_of_total df = Some q -> (0 <= q /\ q <= 1)%Q)).
Proof.
  assert (Hpt : (persisted df <= total_students df)%nat)
    by apply length_filter.
  split; [|split; [|split]].
  - unfold persistence_rate, ratio, total_students.
    destruct df; simpl; split; done.
  - intros q. by apply ratio_range.
  - unfold prop_of_persisters, ratio. by destruct (persisters df).
  - intros Himp.
    assert (n_undecl_to_decl df <= persisters df)%nat as Hup
      by (by apply count_true_le).
    split; [done|]. split; [done|]. split.
    + intros q. by apply ratio_range.
    + intros q. apply ratio_range. unfold persisters, persisted in *. lia.
Qed.

Lemma report_rates_witness :
  (n_undecl_to_decl [sl_first; sl_second]
   <= persisters [sl_first; sl_second])%nat.
Proof.
  apply (report_rates [sl_first; sl_second]).
  intros r Hr. vm_compute in Hr.
  apply elem_of_cons in Hr as [->|Hr]; [discriminate|].
  apply elem_of_cons in Hr as [->|Hr]; [discriminate|].
  by apply elem_of_nil in Hr.
Defined.

(** ** Frames in key order *)

Lemma ascii_compare_lt_trans (a b c : ascii) :
  Ascii.compare a b = Lt -> Ascii.compare b c = Lt -> Ascii.compare a c = Lt.
Proof.
  unfold Ascii.compare. rewrite !N.compare_lt_iff. lia.
Qed.

Lemma string_compare_lt_trans (a b c : string) :
  String.compare a b = Lt -> String.compare b c = Lt ->
  String.compare a c = Lt.
Proof.
  revert b c. induction a as [|x a IH]; intros [|y b] [|z c]; simpl;
    try done.
  destruct (Ascii.compare x y) eqn:Hxy; try done;
    destruct (Ascii.compare y z) eqn:Hyz; try done; intros Hab Hbc.
  - apply Ascii.compare_eq_iff in Hxy, Hyz. subst.
    assert (Ascii.compare z z = Eq) as ->
      by (unfold Ascii.compare; apply N.compare_refl).
    by apply (IH b c).
  - apply Ascii.compare_eq_iff in Hxy. subst. by rewrite Hyz.
  - apply Ascii.compare_eq_iff in Hyz. subst. by rewrite Hxy.
  - by rewrite (ascii_compare_lt_trans x y z).
Qed.

Lemma key_compare_lt_trans (a b c : Key) :
  key_compare a b = Lt -> key_compare b c = Lt -> key_compare a c = Lt.
Proof.
  unfold key_compare.
  destruct (String.compare a.1 b.1) eqn:Hab; try done;
    destruct (String.compare b.1 c.1) eqn:Hbc; try done; intros H1 H2.
  - apply String.compare_eq_iff in Hab, Hbc. rewrite Hab, Hbc.
    rewrite string_compare_refl.
    by apply (string_compare_lt_trans a.2 b.2 c.2).
  - apply String.compare_eq_iff in Hab. by rewrite Hab, Hbc.
  - apply String.compare_eq_iff in Hbc. by rewrite <- Hbc, Hab.
  - by rewrite (string_compare_lt_trans a.1 b.1 c.1).
Qed.

Lemma key_compare_Eq (a b : Key) : key_compare a b = Eq -> a = b.
Proof.
  unfold key_compare. destruct a as [a1 a2], b as [b1 b2]. simpl.
  destruct (String.compare a1 b1) eqn:H1; try done.
  intros H2. apply String.compare_eq_iff in H1, H2. by subst.
Qed.

Lemma key_leb_cases (a b : Key) :
  key_leb a b = true <-> key_compare a b = Lt \/ a = b.
Proof.
  unfold key_leb. split.
  - destruct (key_compare a b) eqn:Hc; try done; intros _.
    + right. by apply key_compare_Eq.
    + by left.
  - intros [->| ->]; [done|].
    pose proof (key_leb_refl b) as Hr. by unfold key_leb in Hr.
Qed.

Lemma key_leb_trans (a b c : Key) :
  key_leb a b = true -> key_leb b c = true -> key_leb a c = true.
Proof.
  rewrite !key_leb_cases. intros [Hab| ->] [Hbc| ->]; auto.
  left. by apply (key_compare_lt_trans a b c).
Qed.

Lemma key_leb_total (a b : Key) :
  key_leb a b = false -> key_leb b a = true.
Proof.
  unfold key_leb, key_compare.
  rewrite (String.compare_antisym a.1 b.1), (String.compare_antisym a.2 b.2).
  destruct (String.compare b.1 a.1), (String.compare b.2 a.2); simpl; done.
Qed.

Section SortedFacts.

Context {A : Type} (key : A -> Key).

Lemma insert_row_Permutation (x : A) (l : list A) :
  insert_row key x l ≡ₚ x :: l.
Proof.
  induction l as [|y l IH]; [done|]. simpl.
  destruct (key_leb _ _); [done|]. rewrite IH. apply Permutation_swap.
Qed.

Lemma insert_row_sorted (x : A) (l : list A) :
  StronglySorted (key_ordered key) l ->
  StronglySorted (key_ordered key) (insert_row key x l).
Proof.
  induction l as [|y l IH]; simpl.
  - intros _. by repeat constructor.
  - intros [Hy Hl]%StronglySorted_cons.
    destruct (key_leb (key x) (key y)) eqn:Hxy.
    + apply StronglySorted_cons. split.
      * constructor; [done|].
        eapply Forall_impl; [exact Hy|]. intros z Hz.
        by apply (key_leb_trans _ (key y)).
      * by apply StronglySorted_cons.
    + apply StronglySorted_cons. split; [|by apply IH].
      rewrite insert_row_Permutation. constructor; [|done].
      by apply key_leb_total.
Qed.

Lemma sort_values_sorted (l : list A) :
  StronglySorted (key_ordered key) (sort_values key l).
Proof.
  induction l as [|x l IH]; simpl; [constructor|].
  by apply insert_row_sorted.
Qed.

Lemma drop_seen_sorted (seen : gset Key) (l : list A) :
  StronglySorted (key_ordered key) l ->
  StronglySorted (key_ordered key) (drop_seen key seen l).
Proof.
  revert seen. induction l as [|x l IH]; intros seen; simpl; [done|].
  intros [Hx Hl]%StronglySorted_cons.
  case_bool_decide; [by apply IH|].
  apply StronglySorted_cons. split; [|by apply IH].
  apply Forall_forall. intros y Hy.
  eapply elem_of_sublist in Hy; [|apply drop_seen_sublist].
  rewrite Forall_forall in Hx. by apply Hx.
Qed.

End SortedFacts.

Lemma strictly_sorted {A : Type} (key : A -> Key) (l : list A) :
  StronglySorted (key_ordered key) l -> NoDup (key <$> l) ->
  StronglySorted (key_before key) l.
Proof.
  induction l as [|x l IH]; [constructor|].
  intros [Hx Hl]%StronglySorted_cons [Hnx Hnd]%NoDup_cons.
  apply StronglySorted_cons. split; [|by apply IH].
  apply Forall_forall. intros y Hy.
  rewrite Forall_forall in Hx. specialize (Hx y Hy).
  apply key_leb_cases in Hx as [Hlt|Heq]; [done|].
  exfalso. apply Hnx. rewrite Heq. by apply list_elem_of_fmap_2.
Qed.

(** Sorting keeps the rows and puts them in ascending key order; each
    census frame and the merged table are in strictly ascending order of
    (id, term_code), compared as Python compares tuples of strings. *)
Theorem frames_in_key_order (tag : string) (df : list EnrollRow) :
  sort_values e_key df ≡ₚ df
  /\ StronglySorted (key_ordered e_key) (sort_values e_key df)
  /\ StronglySorted (key_before s_key) (census_frame tag df)
  /\ StronglySorted (key_before m_key) (student_term df).
Proof.
  split; [apply sort_values_Permutation|].
  split; [apply sort_values_sorted|]. split.
  - apply strictly_sorted; [|apply NoDup_census_frame].
    unfold census_frame.
    apply (StronglySorted_fmap _ (key_ordered e_key)); [done|].
    apply drop_seen_sorted, sort_values_sorted.
  - apply strictly_sorted; [|apply NoDup_student_term].
    apply sort_values_sorted.
Qed.

(** ** Persistence by gender *)

Lemma groupby_col_lookup {A K : Type} `{Countable K}
      (col : A -> option K) (rows : list A) (k : K) :
  groupby_col col rows !! k
  = match filter (fun r => col r = Some k) rows with
    | [] => None
    | g => Some g
    end.
Proof.
  induction rows as [|r rows IH]; [done|]. simpl. rewrite filter_cons.
  destruct (col r) as [k'|] eqn:Hr.
  - destruct (decide (k' = k)) as [->|Hne].
    + rewrite decide_True by done. rewrite lookup_insert_eq, IH.
      by destruct (filter _ rows).
    + rewrite decide_False by congruence. by rewrite lookup_insert_ne.
  - by rewrite decide_False.
Qed.

(** The persistence table by gender has a row for a gender exactly when
    some student has it; the row counts the students of that gender, at
    least one, so no rate divides by zero, and at most that many
    persisted; students without a gender are in no row. The test of the
    two proportions runs exactly when some student is "Male" and some is
    "Female". *)
Theorem by_gender_spec (df : list StudentLevel) (g : string) :
  by_gender df !! g
  = match filter (fun r => sl_gender r = Some g) df with
    | [] => None
    | rows =>
        Some (mkGenderRow (length rows)
                (count_true sl_persisted_w3_to_end rows))
    end
  /\ (forall row, by_gender df !! g = Some row ->
        (1 <= n_total row)%nat /\ (n_persisted row <= n_total row)%nat)
  /\ (ztest_runs df = true <->
      (exists r, r ∈ df /\ sl_gender r = Some "Male")
      /\ (exists r, r ∈ df /\ sl_gender r = Some "Female")).
Proof.
  assert (Hlook : forall g',
    by_gender df !! g'
    = match filter (fun r => sl_gender r = Some g') df with
      | [] => None
      | rows =>
          Some (mkGenderRow (length rows)
                  (count_true sl_persisted_w3_to_end rows))
      end).
  { intros g'. unfold by_gender. rewrite lookup_fmap, groupby_col_lookup.
    by destruct (filter _ df). }
  assert (Hdom : forall g',
    g' ∈ dom (by_gender df) <-> exists r, r ∈ df /\ sl_gender r = Some g').
  { intros g'. rewrite elem_of_dom, Hlook. split.
    - destruct (filter _ df) as [|r rows] eqn:Hf; [by intros [? ?]|].
      intros _.
      assert (r ∈ filter (fun r => sl_gender r = Some g') df)
        as [? ?]%list_elem_of_filter by (rewrite Hf; left).
      by exists r.
    - intros (r & Hin & Hg).
      destruct (filter _ df) as [|r' rows] eqn:Hf; [|by eexists].
      exfalso. by eapply (filter_nil_not_elem_of _ df r). }
  split; [apply Hlook|]. split.
  - intros row. rewrite Hlook.
    destruct (filter _ df) as [|r rows]; [done|]. intros [= <-].
    cbn [n_total n_persisted]. split; [simpl; lia|].
    apply (length_filter _ (r :: rows)).
  - unfold ztest_runs. rewrite bool_decide_eq_true, <- !Hdom.
    split.
    + intros Hsub. split; apply Hsub.
      * apply elem_of_union. left. by apply elem_of_singleton.
      * apply elem_of_union. right. by apply elem_of_singleton.
    + intros [Hm Hf] x [->%elem_of_singleton| ->%elem_of_singleton]
        %elem_of_union; done.
Qed.

Lemma by_gender_spec_witness :
  (1 <= n_total (mkGenderRow 1 1))%nat
  /\ (n_persisted (mkGenderRow 1 1) <= n_total (mkGenderRow 1 1))%nat.
Proof.
  destruct (by_gender_spec df_genders "Female") as (_ & Hrow & _).
  apply (Hrow (mkGenderRow 1 1)). reflexivity.
Defined.
